(** * Opinion authoring and review over a STIX bundle

    A shallow embedding of the two command line tools of the opinion use
    case: [judge_intel.py] (use case 3.3.1, adding an opinion) and
    [read_intel.py] (use case 3.3.2, reading opinions).

    The terminal toolkit (npyscreen) and the object library (stix2) are not
    part of the repository: the few operations the tools call on them are
    embedded here after their documented behaviour, each next to the call
    site that uses it.  Text is modelled over the ASCII range. *)

From Stdlib Require Import Ascii String.
From stdpp Require Import base option list gmap strings sorting.

Local Open Scope string_scope.

(** ** Python text primitives used by the two tools *)

Module PyStr.

Definition LF : ascii := "010"%char.
Definition CR : ascii := "013"%char.

Definition is_upper (c : ascii) : bool :=
  let n := nat_of_ascii c in (65 <=? n)%nat && (n <=? 90)%nat.
Definition is_lower (c : ascii) : bool :=
  let n := nat_of_ascii c in (97 <=? n)%nat && (n <=? 122)%nat.
Definition is_cased (c : ascii) : bool := is_upper c || is_lower c.

Definition upper (c : ascii) : ascii :=
  if is_lower c then ascii_of_nat (nat_of_ascii c - 32) else c.
Definition lower (c : ascii) : ascii :=
  if is_upper c then ascii_of_nat (nat_of_ascii c + 32) else c.

(** [str.title()]: a cased character is upper-cased when the character
    before it is not cased, and lower-cased otherwise. *)
Fixpoint title_from (previous_is_cased : bool) (s : string) : string :=
  match s with
  | EmptyString => EmptyString
  | String c s' =>
      String (if previous_is_cased then lower c else upper c)
             (title_from (is_cased c) s')
  end.
Definition title (s : string) : string := title_from false s.

(** [str.replace(old, new)] for one-character [old] and [new]. *)
Fixpoint replace (old new : ascii) (s : string) : string :=
  match s with
  | EmptyString => EmptyString
  | String c s' =>
      String (if Ascii.eqb c old then new else c) (replace old new s')
  end.

(** Line boundaries of [str.splitlines()] in the ASCII range:
    LF, VT, FF, CR, FS, GS, RS (CR LF counts as one boundary). *)
Definition is_linebreak (c : ascii) : bool :=
  let n := nat_of_ascii c in
  ((10 <=? n)%nat && (n <=? 13)%nat) || ((28 <=? n)%nat && (n <=? 30)%nat).

(** [str.splitlines()]: the lines without their line ends; a final line
    end opens no further line.  [after_cr] tells that the character
    before was a CR, whose boundary a LF then completes. *)
Fixpoint splitlines_from (after_cr : bool) (s : string) : list string :=
  match s with
  | EmptyString => []
  | String c s' =>
      if after_cr && Ascii.eqb c LF then splitlines_from false s'
      else if is_linebreak c then EmptyString :: splitlines_from (Ascii.eqb c CR) s'
      else match splitlines_from false s' with
           | [] => [String c EmptyString]
           | l :: rest => String c l :: rest
           end
  end.
Definition splitlines (s : string) : list string := splitlines_from false s.

(** [sep.join(parts)]. *)
Fixpoint join (sep : string) (parts : list string) : string :=
  match parts with
  | [] => EmptyString
  | [p] => p
  | p :: ps => p +:+ sep +:+ join sep ps
  end.

(** [s.split('\n')]: the pieces between line feeds, always at least one. *)
Fixpoint split_lf (s : string) : list string :=
  match s with
  | EmptyString => [EmptyString]
  | String c s' =>
      if Ascii.eqb c LF then EmptyString :: split_lf s'
      else match split_lf s' with
           | [] => [String c EmptyString]
           | l :: rest => String c l :: rest
           end
  end.

Fixpoint has_lf (s : string) : bool :=
  match s with
  | EmptyString => false
  | String c s' => Ascii.eqb c LF || has_lf s'
  end.


End PyStr.

(** ** Outcomes of Python code: a value, a raised exception, or [sys.exit] *)

Inductive exn : Type :=
| KeyError (key : string)
| TypeError
| ValueError
| IndexError
| AttributeError
| OSError.

Inductive outcome (A : Type) : Type :=
| Ok (a : A)
| Raised (e : exn)
| Exited (code : nat).
Arguments Ok {A} a.
Arguments Raised {A} e.
Arguments Exited {A} code.

(** ** Timestamps *)

(** A [datetime] in UTC, as stix2 keeps every timestamp. *)
Record datetime : Type := mkDatetime {
  year : nat; month : nat; day : nat;
  hour : nat; minute : nat; second : nat; microsecond : nat
}.

Definition dt_fields (d : datetime) : list nat :=
  [year d; month d; day d; hour d; minute d; second d; microsecond d].

#[global] Instance datetime_eq_dec : EqDecision datetime.
Proof. solve_decision. Defined.

(** Tuple comparison, field by field. *)
Fixpoint lex_ltb (a b : list nat) : bool :=
  match a, b with
  | x :: a', y :: b' => (x <? y)%nat || ((x =? y)%nat && lex_ltb a' b')
  | [], _ :: _ => true
  | _, [] => false
  end.

(** [a < b] on datetimes. *)
Definition dt_ltb (a b : datetime) : bool := lex_ltb (dt_fields a) (dt_fields b).

Definition digit (n : nat) : ascii := ascii_of_nat (48 + n mod 10).
Definition pad2 (n : nat) : string :=
  String (digit (n / 10)) (String (digit n) EmptyString).
Definition pad4 (n : nat) : string :=
  String (digit (n / 1000)) (String (digit (n / 100)) (pad2 n)).

(** [d.strftime('%Y-%m-%d %H:%M:%S')], for a year of four digits; below
    the year 1000 the platforms differ in how they pad [%Y]. *)
Definition strftime (d : datetime) : string :=
  pad4 (year d) +:+ "-" +:+ pad2 (month d) +:+ "-" +:+ pad2 (day d) +:+ " "
  +:+ pad2 (hour d) +:+ ":" +:+ pad2 (minute d) +:+ ":" +:+ pad2 (second d).

(** Reading a printed field back, as [int()] does on decimal digits. *)
Definition is_digit (c : ascii) : bool :=
  let n := nat_of_ascii c in (48 <=? n)%nat && (n <=? 57)%nat.

Fixpoint decimal_from (acc : nat) (s : string) : option nat :=
  match s with
  | EmptyString => Some acc
  | String c s' =>
      if is_digit c then decimal_from (10 * acc + (nat_of_ascii c - 48)) s' else None
  end.
Definition decimal (s : string) : option nat := decimal_from 0 s.


(** The ranges of the printed fields, for a year of four digits, where
    every platform prints [%Y] alike. *)
Definition dt_valid (d : datetime) : Prop :=
  (10 * 100 ≤ year d < 100 * 100 ∧ 1 ≤ month d ≤ 12 ∧ 1 ≤ day d ≤ 31 ∧
   hour d < 24 ∧ minute d < 60 ∧ second d < 60)%nat.

(** ** Data model: the objects of a bundle *)

(** A STIX object as the tools and the store read it: its [type] tag, its
    identifier, the creation and modification times every versioned object
    carries, and the properties the tools access.  [name],
    [identity_class], [explanation] and [created_by_ref] are optional
    properties: [None] is an object that does not carry the property, and
    reading it as an attribute raises [AttributeError].  The other
    properties are never read as attributes where they may be absent. *)
Record StixObject : Type := mkObject {
  o_type : string;
  o_id : string;
  o_name : option string;
  identity_class : option string;
  contact_information : string;
  object_refs : list string;
  opinion : string;
  explanation : option string;
  created : datetime;
  modified : datetime;
  created_by_ref : option string
}.

Record Bundle : Type := mkBundle {
  bundle_id : string;
  objects : list StixObject
}.

(** [stix2.Identity(identity_class=..., name=..., contact_information=...)];
    the library draws the identifier and the creation time, which are
    arguments here; a new object is modified when it is created. *)
Definition Identity (fresh_id : string) (now : datetime)
    (cls nm contact : string) : StixObject :=
  {| o_type := "identity"; o_id := fresh_id; o_name := Some nm;
     identity_class := Some cls; contact_information := contact;
     object_refs := []; opinion := ""; explanation := None;
     created := now; modified := now; created_by_ref := None |}.

(** [stix2.Opinion(object_refs=..., opinion=..., explanation=...)].
    A reference given as an object is stored as that object's identifier
    ([None] is no reference: the constructor raises); the opinion value
    must belong to the vocabulary [allowed] of the
    library, otherwise the constructor raises.  No [created_by_ref] is
    passed by the caller, so the property is absent. *)
Definition Opinion (allowed : list string) (fresh_id : string) (now : datetime)
    (refs : list (option StixObject)) (value expl : string) : outcome StixObject :=
  match mapM (fmap o_id) refs with
  | None => Raised ValueError
  | Some ids =>
      if bool_decide (value ∈ allowed) then
        Ok {| o_type := "opinion"; o_id := fresh_id; o_name := None;
              identity_class := None; contact_information := "";
              object_refs := ids; opinion := value;
              explanation := Some expl; created := now; modified := now;
              created_by_ref := None |}
      else Raised ValueError
  end.

(** ** Query layer of the review tool *)

Inductive FilterOp : Type := OpEq | OpContains.

(** [stix2.Filter(property, op, value)]. *)
Record Filter : Type := mkFilter {
  f_property : string; f_op : FilterOp; f_value : string
}.

Inductive PropValue : Type :=
| PStr (s : string)
| PList (l : list string).

(** The properties a filter can name; an absent property gives [None]. *)
Definition get_property (o : StixObject) (p : string) : option PropValue :=
  if bool_decide (p = "type") then Some (PStr (o_type o))
  else if bool_decide (p = "id") then Some (PStr (o_id o))
  else if bool_decide (p = "object_refs") then
    match object_refs o with [] => None | l => Some (PList l) end
  else if bool_decide (p = "created_by_ref") then PStr <$> created_by_ref o
  else None.

(** An object lacking the property is discarded by the filter. *)
Definition check_filter (f : Filter) (o : StixObject) : bool :=
  match get_property o (f_property f), f_op f with
  | Some (PStr s), OpEq => bool_decide (s = f_value f)
  | Some (PList l), OpContains => bool_decide (f_value f ∈ l)
  | _, _ => false
  end.

(** A Python [dict]: the keys in the order in which they were first set;
    setting a key that is present replaces its value in place. *)
Section Dict.
Context {K V : Type} `{EqDecision K}.

Fixpoint dict_set (k : K) (v : V) (d : list (K * V)) : list (K * V) :=
  match d with
  | [] => [(k, v)]
  | (k', v') :: d' =>
      if decide (k' = k) then (k, v) :: d' else (k', v') :: dict_set k v d'
  end.

Fixpoint dict_get (k : K) (d : list (K * V)) : option V :=
  match d with
  | [] => None
  | (k', v') :: d' => if decide (k' = k) then Some v' else dict_get k d'
  end.

Definition dict_values (d : list (K * V)) : list V := snd <$> d.
End Dict.

(** What the store keeps under one identifier: the versions of the object
    by their [modified] time, and the latest of them. *)
Record ObjectFamily : Type := mkFamily {
  all_versions : list (datetime * StixObject);
  latest_version : StixObject
}.

(** [family.add(obj)]: the version is set under its [modified] time, and
    becomes the latest when it is strictly later than the latest so far. *)
Definition family_add (f : option ObjectFamily) (obj : StixObject) : ObjectFamily :=
  match f with
  | None => mkFamily [(modified obj, obj)] obj
  | Some f =>
      mkFamily (dict_set (modified obj) obj (all_versions f))
        (if dt_ltb (modified (latest_version f)) (modified obj)
         then obj else latest_version f)
  end.

(** [stix2.MemoryStore]: a dict from identifier to the family of versions. *)
Record MemoryStore : Type := mkStore { store_data : list (string * ObjectFamily) }.

Definition MemoryStore_add (st : MemoryStore) (obj : StixObject) : MemoryStore :=
  mkStore (dict_set (o_id obj)
             (family_add (dict_get (o_id obj) (store_data st)) obj)
             (store_data st)).

(** [stix2.MemoryStore(bundle)]: the objects of the bundle are added one
    after the other. *)
Definition MemoryStore_of (b : Bundle) : MemoryStore :=
  foldl MemoryStore_add (mkStore []) (objects b).

(** Every version the store holds: identifier by identifier, and for each
    its versions. *)
Definition all_objects (st : MemoryStore) : list StixObject :=
  f ← dict_values (store_data st); dict_values (all_versions f).

(** [store.query(filters)]: the stored versions that pass every filter. *)
Definition query (st : MemoryStore) (fs : list Filter) : list StixObject :=
  filter (λ o, forallb (λ f, check_filter f o) fs = true) (all_objects st).

(** [store.get(id)]: the latest version kept under the identifier. *)
Definition store_get (st : MemoryStore) (stix_id : string) : option StixObject :=
  latest_version <$> dict_get stix_id (store_data st).

(** [store.creator_of(obj)]: the object named by [created_by_ref], or
    [None] when the property is absent or empty, or names nothing in the
    store. *)
Definition creator_of (st : MemoryStore) (o : StixObject) : option StixObject :=
  match created_by_ref o with
  | None => None
  | Some r => if bool_decide (r = "") then None else store_get st r
  end.

(** What a turn of the review loop reads of an opinion: its explanation,
    and the name and the identity class of the creator the store resolves
    for it. *)
Definition renderable (st : MemoryStore) (op : StixObject) : Prop :=
  ∃ (creator : StixObject) (nm cls expl : string),
    creator_of st op = Some creator
    ∧ o_name creator = Some nm ∧ identity_class creator = Some cls
    ∧ explanation op = Some expl.


(** What identifies a version in the store: the identifier and the
    modification time. *)
Definition version_key (o : StixObject) : string * datetime := (o_id o, modified o).

(** [list.sort(key=..., reverse=True)]: descending by key, and stable:
    elements whose keys compare equal keep their order.  [x] precedes all
    of [l] in the input, so it goes in front of the first element whose
    key is not greater than its own. *)
Section SortDesc.
Context {A K : Type} (key : A → K) (ltb : K → K → bool).

Fixpoint insert_desc (x : A) (l : list A) : list A :=
  match l with
  | [] => [x]
  | y :: l' => if ltb (key x) (key y) then y :: insert_desc x l' else x :: l
  end.

Definition sort_desc (l : list A) : list A := foldr insert_desc [] l.

(** [a] may stand before [b] in a descending list: its key is not the
    smaller one. *)
Definition desc (a b : A) : Prop := ltb (key a) (key b) = false.
End SortDesc.

(** [a] was created when [b] was, or later: the order in which the
    review lists two opinions. *)
Definition created_not_before (a b : StixObject) : Prop :=
  created a = created b ∨ dt_ltb (created b) (created a) = true.

(** What the two filters of the review tool ask of an object, in the
    words of the specification. *)
Definition is_opinion_on (indicator o : StixObject) : Prop :=
  o_type o = "opinion" ∧ o_id indicator ∈ object_refs o.

#[global] Instance is_opinion_on_dec indicator o : Decision (is_opinion_on indicator o).
Proof. unfold is_opinion_on. apply _. Defined.

(** The two filters and the sort of [IndicatorViewerForm.set_indicator]. *)
Definition opinionsFor (st : MemoryStore) (indicator : StixObject) : list StixObject :=
  let opinions :=
    query st [ mkFilter "type" OpEq "opinion";
               mkFilter "object_refs" OpContains (o_id indicator) ] in
  sort_desc created dt_ltb opinions.

(** ** The review tool ([read_intel.py]) *)

Module Reader.

(** [IndicatorViewerForm]: the store, the indicator shown, and the pager
    ([buffer.name] and the entries [buffer.values]). *)
Record IndicatorViewerForm : Type := mkViewer {
  store : MemoryStore;
  indicator : option StixObject;
  buffer_name : string;
  buffer_values : list string
}.

Definition NL : string := String PyStr.LF EmptyString.
Definition indent : string := "    ".

(** [indent + '\n'.join(indent + line for line in explanation.splitlines())] *)
Definition explanation_text (expl : string) : string :=
  indent +:+ PyStr.join NL ((λ line, indent +:+ line) <$> PyStr.splitlines expl).

(** [opinion.opinion.replace('-', ' ').title()] *)
Definition opinion_text (value : string) : string :=
  PyStr.title (PyStr.replace "-" " " value).

(** The seven entries buffered for one opinion, from the creator's name and
    identity class and the opinion's value, creation time and explanation. *)
Definition block (nm cls value : string) (at_time : datetime) (expl : string) : list string :=
  [ "# " +:+ nm +:+ " (" +:+ PyStr.title cls +:+ ")";
    "  Opinion on effectiveness: " +:+ opinion_text value;
    "  Evaluated at: " +:+ strftime at_time;
    "";
    explanation_text expl;
    "";
    "" ].

(** One turn of the loop, up to the call that extends the pager:
    [opinion.explanation], [creator.name] and [creator.identity_class] are
    read as attributes, which raises [AttributeError] when the opinion has
    no explanation, when no creator was resolved, or when the creator lacks
    the name or the identity class.  [None] is that exception. *)
Definition render_one (st : MemoryStore) (op : StixObject) : option (list string) :=
  match creator_of st op, explanation op with
  | Some creator, Some expl =>
      match o_name creator, identity_class creator with
      | Some nm, Some cls => Some (block nm cls (opinion op) (created op) expl)
      | _, _ => None
      end
  | _, _ => None
  end.

(** The [for opinion in opinions] loop: a turn that raises leaves what was
    buffered so far. *)
Fixpoint render (st : MemoryStore) (opinions : list StixObject)
    (buf : list string) : outcome unit * list string :=
  match opinions with
  | [] => (Ok (), buf)
  | op :: rest =>
      match render_one st op with
      | None => (Raised AttributeError, buf)
      | Some entries => render st rest (buf ++ entries)
      end
  end.

(** [set_indicator]: the indicator is kept, the pager is named after it,
    which reads [indicator.name], then cleared and filled. *)
Definition set_indicator (ind : option StixObject) (form : IndicatorViewerForm)
    : outcome unit * IndicatorViewerForm :=
  match ind with
  | None => (Ok (), form)
  | Some i =>
      match o_name i with
      | None =>
          (Raised AttributeError,
           {| store := store form; indicator := Some i;
              buffer_name := buffer_name form; buffer_values := buffer_values form |})
      | Some i_name =>
          let nm := "Opinions: " +:+ i_name +:+ " (" +:+ o_id i +:+ ")" in
          (* buffer.clearBuffer() *)
          let '(r, buf) := render (store form) (opinionsFor (store form) i) [] in
          (r, {| store := store form; indicator := Some i;
                 buffer_name := nm; buffer_values := buf |})
      end
  end.

End Reader.

(** ** The authoring tool ([judge_intel.py]) *)

Module Judge.

(** *** Files *)

Fixpoint str_take (n : nat) (s : string) : string :=
  match n, s with
  | S n', String c s' => String c (str_take n' s')
  | _, _ => EmptyString
  end.

Fixpoint str_drop (n : nat) (s : string) : string :=
  match n, s with
  | S n', String _ s' => str_drop n' s'
  | _, _ => s
  end.

Fixpoint zeros (n : nat) : string :=
  match n with
  | O => EmptyString
  | S n' => String "000"%char (zeros n')
  end.

(** An open text stream: the file it names and its position.
    [f_lazy] marks a stream of [click.File('w')] not opened yet: it is
    created empty at its first operation. *)
Record File : Type := mkFile { f_name : string; f_pos : nat; f_lazy : bool }.

(** *** Selection widgets of the toolkit *)

(** [values] are the lines offered, [value] the indices check-marked,
    [cursor_line] the highlighted line. *)
Record MultiSelect (A : Type) : Type := mkSelect {
  values : list A; value : list nat; cursor_line : nat
}.
Arguments mkSelect {A} values value cursor_line.
Arguments values {A} m.
Arguments value {A} m.
Arguments cursor_line {A} m.

(** [get_selected_objects()] of a [MultiSelect]: [None] when nothing is
    check-marked, otherwise the values at the check-marked indices. *)
Definition get_selected_objects {A} (w : MultiSelect A) : outcome (option (list A)) :=
  match value w with
  | [] => Ok None
  | idx =>
      match mapM (λ i, values w !! i) idx with
      | Some l => Ok (Some l)
      | None => Raised IndexError
      end
  end.

(** *** Application state *)

Inductive FormKind : Type :=
| IdentitySelectionForm
| IdentityEntryForm
| IndicatorSelectionForm
| IndicatorEvaluationForm.

(** Everything the run mutates: the bundle every form shares, the
    application's fields, the registered forms with their widgets, and
    the files. *)
Record World : Type := mkWorld {
  bundle : Bundle;
  identity : option StixObject;
  Forms : gmap string FormKind;
  NEXT_ACTIVE_FORM : option string;
  identity_select : MultiSelect (option StixObject);
  name_value : string;
  email_value : string;
  indicator_select : MultiSelect StixObject;
  eval_indicator : option StixObject;
  eval_name : string;
  opinion_select : MultiSelect string;
  explanation_value : string;
  files : gmap string string;
  output : File
}.

Definition set_bundle (b : Bundle) (w : World) : World :=
  mkWorld b (identity w) (Forms w) (NEXT_ACTIVE_FORM w) (identity_select w)
    (name_value w) (email_value w) (indicator_select w) (eval_indicator w)
    (eval_name w) (opinion_select w) (explanation_value w) (files w) (output w).

Definition set_app_identity (i : option StixObject) (w : World) : World :=
  mkWorld (bundle w) i (Forms w) (NEXT_ACTIVE_FORM w) (identity_select w)
    (name_value w) (email_value w) (indicator_select w) (eval_indicator w)
    (eval_name w) (opinion_select w) (explanation_value w) (files w) (output w).

Definition set_next (n : option string) (w : World) : World :=
  mkWorld (bundle w) (identity w) (Forms w) n (identity_select w)
    (name_value w) (email_value w) (indicator_select w) (eval_indicator w)
    (eval_name w) (opinion_select w) (explanation_value w) (files w) (output w).

Definition set_eval (i : option StixObject) (nm : string) (w : World) : World :=
  mkWorld (bundle w) (identity w) (Forms w) (NEXT_ACTIVE_FORM w) (identity_select w)
    (name_value w) (email_value w) (indicator_select w) i
    nm (opinion_select w) (explanation_value w) (files w) (output w).

Definition set_io (fs : gmap string string) (f : File) (w : World) : World :=
  mkWorld (bundle w) (identity w) (Forms w) (NEXT_ACTIVE_FORM w) (identity_select w)
    (name_value w) (email_value w) (indicator_select w) (eval_indicator w)
    (eval_name w) (opinion_select w) (explanation_value w) fs f.

(** The user's input on the widgets. *)
Definition set_identity_select (s : MultiSelect (option StixObject)) (w : World) : World :=
  mkWorld (bundle w) (identity w) (Forms w) (NEXT_ACTIVE_FORM w) s
    (name_value w) (email_value w) (indicator_select w) (eval_indicator w)
    (eval_name w) (opinion_select w) (explanation_value w) (files w) (output w).

Definition set_entry (nm email : string) (w : World) : World :=
  mkWorld (bundle w) (identity w) (Forms w) (NEXT_ACTIVE_FORM w) (identity_select w)
    nm email (indicator_select w) (eval_indicator w)
    (eval_name w) (opinion_select w) (explanation_value w) (files w) (output w).

Definition set_indicator_select (s : MultiSelect StixObject) (w : World) : World :=
  mkWorld (bundle w) (identity w) (Forms w) (NEXT_ACTIVE_FORM w) (identity_select w)
    (name_value w) (email_value w) s (eval_indicator w)
    (eval_name w) (opinion_select w) (explanation_value w) (files w) (output w).

Definition set_evaluation_input (s : MultiSelect string) (expl : string) (w : World) : World :=
  mkWorld (bundle w) (identity w) (Forms w) (NEXT_ACTIVE_FORM w) (identity_select w)
    (name_value w) (email_value w) (indicator_select w) (eval_indicator w)
    (eval_name w) s expl (files w) (output w).

(** Code that reads and writes the world and may raise or exit; the
    world survives an exception. *)
Definition M (A : Type) : Type := World → outcome A * World.

Definition ret {A} (a : A) : M A := λ w, (Ok a, w).
Definition raise {A} (e : exn) : M A := λ w, (Raised e, w).
Definition sys_exit {A} (code : nat) : M A := λ w, (Exited code, w).
Definition bind {A B} (c : M A) (k : A → M B) : M B :=
  λ w, match c w with
       | (Ok a, w') => k a w'
       | (Raised e, w') => (Raised e, w')
       | (Exited n, w') => (Exited n, w')
       end.
Definition lift {A} (o : outcome A) : M A := λ w, (o, w).
Definition gets {A} (f : World → A) : M A := λ w, (Ok (f w), w).
Definition modify (f : World → World) : M unit := λ w, (Ok (), f w).

Notation "'do' x <- c ; k" := (bind c (λ x, k))
  (at level 10, x name, c at level 99, k at level 200).
Notation "c ;; k" := (bind c (λ _, k))
  (at level 100, k at level 200, right associativity).

(** [get_selected_objects()] of a [SelectOne]: the values at the selected
    indices, an empty list when nothing is selected. *)
Definition SelectOne_get_selected_objects {A} (w : MultiSelect A) : outcome (list A) :=
  match mapM (λ i, values w !! i) (value w) with
  | Some l => Ok l
  | None => Raised IndexError
  end.

(** [(x,) = objs]: unpacking into one name. *)
Definition unpack1 {A} (objs : option (list A)) : outcome A :=
  match objs with
  | None => Raised TypeError
  | Some [x] => Ok x
  | Some _ => Raised ValueError
  end.

(** The environment of one run: the opinion vocabulary of the library
    ([stix2.Opinion._properties['opinion'].allowed]) and its serializer
    ([bundle.serialize(pretty=...)]). *)
Section Tool.
Variable allowed : list string.
Variable serialize : bool → Bundle → string.

(** What the library draws when it constructs an object. *)
Record Env : Type := mkEnv { fresh_id : string; now : datetime }.

(** *** The output stream *)

Definition resize (n : nat) (s : string) : string :=
  str_take n s +:+ zeros (n - String.length s).

Definition ensure_open : M unit :=
  modify (λ w,
    let f := output w in
    if f_lazy f
    then set_io (<[f_name f := ""]> (files w)) (mkFile (f_name f) 0 false) w
    else w).

(** [output.truncate()]: cut the file at the stream position. *)
Definition truncate : M unit :=
  ensure_open ;;
  modify (λ w,
    let f := output w in
    let old := default "" (files w !! f_name f) in
    set_io (<[f_name f := resize (f_pos f) old]> (files w)) f w).

(** [output.write(content)]: overwrite from the stream position on. *)
Definition write (content : string) : M unit :=
  ensure_open ;;
  modify (λ w,
    let f := output w in
    let old := default "" (files w !! f_name f) in
    let stop := f_pos f + String.length content in
    set_io (<[f_name f := resize (f_pos f) old +:+ content +:+ str_drop stop old]> (files w))
           (mkFile (f_name f) stop false) w).

(** *** [NPSAppManaged] *)

Definition addForm (f_id : string) (form : FormKind) : M unit :=
  modify (λ w,
    mkWorld (bundle w) (identity w) (<[f_id := form]> (Forms w)) (NEXT_ACTIVE_FORM w)
      (identity_select w) (name_value w) (email_value w) (indicator_select w)
      (eval_indicator w) (eval_name w) (opinion_select w) (explanation_value w)
      (files w) (output w)).

Definition switchForm (fmid : string) : M unit := modify (set_next (Some fmid)).

Definition getForm (f_id : string) : M FormKind :=
  λ w, match Forms w !! f_id with
       | Some f => (Ok f, w)
       | None => (Raised (KeyError f_id), w)
       end.

(** One turn of the main loop: the form named by [NEXT_ACTIVE_FORM] is
    looked up among the registered forms and becomes the active one;
    the loop ends when no form is named. *)
Definition next_form : M (option FormKind) :=
  λ w, match NEXT_ACTIVE_FORM w with
       | None => (Ok None, w)
       | Some fmid =>
           if bool_decide (fmid = "") then (Ok None, w)
           else match Forms w !! fmid with
                | Some f => (Ok (Some f), w)
                | None => (Raised (KeyError fmid), w)
                end
       end.

(** *** [IndicatorEvaluationApplication] *)

Definition set_identity (i : StixObject) : M unit :=
  modify (λ w, set_bundle (mkBundle (bundle_id (bundle w)) (objects (bundle w) ++ [i])) w) ;;
  modify (set_app_identity (Some i)).

Definition on_identity_selected (i : StixObject) : M unit :=
  set_identity i ;;
  switchForm "INDICATORS".

(** The widgets the forms build when [onStart] constructs them. *)
Definition IdentitySelection_init (b : Bundle) : MultiSelect (option StixObject) :=
  let identities := filter (λ obj, o_type obj = "identity") (objects b) in
  mkSelect (None :: (Some <$> identities)) [] 0.

Definition IndicatorSelection_init (b : Bundle) : MultiSelect StixObject :=
  let indicators := filter (λ obj, o_type obj = "indicator") (objects b) in
  mkSelect indicators [] 0.

Definition OpinionMenu_init : MultiSelect string := mkSelect allowed [] 0.

Definition onStart : M unit :=
  do b <- gets bundle;
  addForm "MAIN" IdentitySelectionForm ;;
  modify (set_identity_select (IdentitySelection_init b)) ;;
  addForm "NEW_IDENTITY" IdentityEntryForm ;;
  modify (set_entry "" "") ;;
  addForm "INDICATORS" IndicatorSelectionForm ;;
  modify (set_indicator_select (IndicatorSelection_init b)) ;;
  addForm "EVALUATION" IndicatorEvaluationForm ;;
  modify (set_evaluation_input OpinionMenu_init "").

(** *** [IdentitySelectionForm] and [IdentitySelection] *)

Definition IdentitySelectionForm_on_cancel : M unit := sys_exit 0.

Definition get_identity : M (option StixObject) :=
  do sel <- gets identity_select;
  do objs <- lift (get_selected_objects sel);
  match objs with
  | Some (_ :: _) => lift (unpack1 objs)
  | _ => ret None
  end.

Definition IdentitySelection_actionHighlighted (act_on_this : option StixObject) : M unit :=
  do i <- get_identity;
  match i with
  | None => switchForm "NEW_IDENTITY"
  | Some i' => on_identity_selected i'
  end.

(** *** [IdentityEntryForm] *)

Definition IdentityEntryForm_on_cancel : M unit := switchForm "IDENTITIES".

Definition IdentityEntryForm_on_ok (env : Env) : M unit :=
  do nm <- gets name_value;
  do email <- gets email_value;
  on_identity_selected (Identity (fresh_id env) (now env) "individual" nm email).

(** *** [IndicatorSelectionForm] and [IndicatorSelection] *)

Definition IndicatorSelectionForm_on_cancel : M unit := switchForm "IDENTITIES".

(** The indicator is kept, then the form is named after it, which reads
    [indicator.name]. *)
Definition IndicatorEvaluationForm_set_indicator (ind : option StixObject) : M unit :=
  match ind with
  | None => ret ()
  | Some i =>
      do form_name <- gets eval_name;
      modify (set_eval (Some i) form_name) ;;
      match o_name i with
      | None => raise AttributeError
      | Some nm =>
          modify (set_eval (Some i)
                    ("Evaluate Indicator: " +:+ nm +:+ " " +:+ o_id i))
      end
  end.

Definition IndicatorSelection_actionHighlighted (ind : StixObject) : M unit :=
  getForm "EVALUATION" ;;
  IndicatorEvaluationForm_set_indicator (Some ind) ;;
  switchForm "EVALUATION".

(** *** [OpinionSelectOne], [OpinionMenu] and [IndicatorEvaluationForm] *)

Definition display_value (option : string) : string :=
  PyStr.title (PyStr.replace "-" " " option).

Definition get_opinion : M string :=
  do sel <- gets opinion_select;
  do objs <- lift (SelectOne_get_selected_objects sel);
  lift (unpack1 (Some objs)).

Definition OpinionMenu_value : M string := get_opinion.

Definition IndicatorEvaluationForm_on_ok (env : Env)
    (on_save : StixObject → M unit) : M unit :=
  do ind <- gets eval_indicator;
  do v <- OpinionMenu_value;
  do expl <- gets explanation_value;
  do op <- lift (Opinion allowed (fresh_id env) (now env) [ind] v expl);
  modify (λ w, set_bundle (mkBundle (bundle_id (bundle w)) (objects (bundle w) ++ [op])) w) ;;
  on_save op ;;
  sys_exit 0.

Definition IndicatorEvaluationForm_on_cancel : M unit := switchForm "MAIN".

(** *** [judge_intel] and its callbacks *)

Definition add_opinion (op : StixObject) : M unit := ret ().

Definition save_bundle : M unit :=
  do b <- gets bundle;
  let content := serialize true b in
  truncate ;;
  write content.

Definition handle_save (op : StixObject) : M unit :=
  add_opinion op ;;
  save_bundle.

(** The stream written at save time: the [-o] file, opened lazily for
    writing, or else the input file reopened with mode [r+]. *)
Definition open_output (input_name : string) (output_name : option string) : File :=
  match output_name with
  | None => mkFile input_name 0 false
  | Some p => mkFile p 0 true
  end.

(** The application as constructed: no form registered yet, no identity,
    and the starting form ["MAIN"] named as the next one. *)
Definition initial_world (parsed : Bundle) (fs : gmap string string) (out : File) : World :=
  mkWorld parsed None ∅ (Some "MAIN") (mkSelect [] [] 0) "" ""
    (mkSelect [] [] 0) None "" (mkSelect [] [] 0) "" fs out.

(** [judge_intel(input, output)] up to [app.run()], for an input file
    that parses to [parsed]; for a missing input file the option parser
    reports the usage error and exits with status 2. *)
Definition judge_intel (input_name : string) (output_name : option string)
    (parsed : Bundle) (fs : gmap string string) : outcome World :=
  match fs !! input_name with
  | None => Exited 2
  | Some _ => Ok (initial_world parsed fs (open_output input_name output_name))
  end.

(** *** The workflow: which handler a user action reaches *)

Inductive Action : Type :=
| Button_ok        (* the form's OK button, whatever its label *)
| Button_cancel    (* the Cancel button of a two-button form *)
| Enter.           (* enter on the highlighted line of a selection *)

(** [self.values[self.cursor_line]] *)
Definition highlighted {A} (sel : MultiSelect A) : outcome A :=
  match values sel !! cursor_line sel with
  | Some x => Ok x
  | None => Raised IndexError
  end.

(** A [CancelForm] has one button, labelled Cancel, and its [on_ok]
    calls [on_cancel]. *)
Definition handle (env : Env) (form : FormKind) (a : Action) : M unit :=
  match form, a with
  | IdentitySelectionForm, Button_ok => IdentitySelectionForm_on_cancel
  | IdentitySelectionForm, Enter =>
      do sel <- gets identity_select;
      do x <- lift (highlighted sel);
      IdentitySelection_actionHighlighted x
  | IdentityEntryForm, Button_ok => IdentityEntryForm_on_ok env
  | IdentityEntryForm, Button_cancel => IdentityEntryForm_on_cancel
  | IndicatorSelectionForm, Button_ok => IndicatorSelectionForm_on_cancel
  | IndicatorSelectionForm, Enter =>
      do sel <- gets indicator_select;
      do x <- lift (highlighted sel);
      IndicatorSelection_actionHighlighted x
  | IndicatorEvaluationForm, Button_ok => IndicatorEvaluationForm_on_ok env handle_save
  | IndicatorEvaluationForm, Button_cancel => IndicatorEvaluationForm_on_cancel
  | _, _ => ret ()
  end.

(** The active form handles the action, then the main loop activates
    the form named next. *)
Definition step (env : Env) (form : FormKind) (a : Action) : M (option FormKind) :=
  handle env form a ;;
  next_form.

End Tool.

End Judge.

(** ** A whole authoring run *)

Module Session.
Import Judge.

(** What the user enters on the widgets before acting: check marks and
    highlighted line of the identity selection, highlighted line of the
    indicator selection, the two fields of the identity entry, and the
    selection and text of the evaluation.  The lines a widget offers are
    set when its form is built and are not the user's to change. *)
Inductive Edit : Type :=
| Mark_identities (marks : list nat) (line : nat)
| Highlight_indicator (line : nat)
| Fill_entry (nm email : string)
| Fill_evaluation (marks : list nat) (line : nat) (text : string).

Definition apply_edit (w : World) (e : Edit) : World :=
  match e with
  | Mark_identities marks line =>
      set_identity_select (mkSelect (values (identity_select w)) marks line) w
  | Highlight_indicator line =>
      set_indicator_select
        (mkSelect (values (indicator_select w)) (value (indicator_select w)) line) w
  | Fill_entry nm email => set_entry nm email w
  | Fill_evaluation marks line text =>
      set_evaluation_input (mkSelect (values (opinion_select w)) marks line) text w
  end.

(** One turn of the user: what is entered, the action that ends the turn,
    and what the library draws if the action constructs an object. *)
Record Input : Type := mkInput {
  edits : list Edit; action : Action; drawn : Env
}.

Section Run.
Variable allowed : list string.
Variable serialize : bool → Bundle → string.

(** The main loop of [app.run()]: as long as a form is named next, it is
    looked up and edited, and the action that ends the editing is handled.
    The loop is followed for as many turns as the user takes. *)
Fixpoint main_loop (inputs : list Input) : M unit :=
  match inputs with
  | [] => ret ()
  | i :: rest =>
      do form <- next_form;
      match form with
      | None => ret ()
      | Some f =>
          modify (λ w, foldl apply_edit w (edits i)) ;;
          handle allowed serialize (drawn i) f (action i) ;;
          main_loop rest
      end
  end.

(** [app.run()]: [onStart], then the main loop. *)
Definition run (inputs : list Input) : M unit :=
  onStart allowed ;;
  main_loop inputs.

End Run.

End Session.

(** ** The review application ([read_intel.py]) *)

Module ReaderApp.

Inductive FormKind : Type :=
| IndicatorSelectionForm
| IndicatorViewerForm.

(** The application: its store, the registered forms, the form named next,
    the indicator selection and the viewer form. *)
Record World : Type := mkWorld {
  store : MemoryStore;
  Forms : gmap string FormKind;
  NEXT_ACTIVE_FORM : option string;
  indicator_select : Judge.MultiSelect StixObject;
  viewer : Reader.IndicatorViewerForm
}.

Inductive Action : Type :=
| Button_ok    (* the one button of the form: Done, or Return *)
| Enter.       (* enter on the highlighted line of the selection *)

(** [IndicatorEvaluationReaderApplication(bundle)] *)
Definition initial_world (b : Bundle) : World :=
  mkWorld (MemoryStore_of b) ∅ (Some "MAIN") (Judge.mkSelect [] [] 0)
    (Reader.mkViewer (MemoryStore_of b) None "" []).

(** The lines of [IndicatorSelectionForm]: the objects of type indicator. *)
Definition IndicatorSelection_init (st : MemoryStore) : Judge.MultiSelect StixObject :=
  let indicators := query st [ mkFilter "type" OpEq "indicator" ] in
  Judge.mkSelect indicators [] 0.

(** [onStart]: both forms are built and registered; the viewer is built
    without an indicator, its pager named Opinions. *)
Definition onStart (w : World) : World :=
  mkWorld (store w)
    (<["INDICATOR" := IndicatorViewerForm]>
       (<["MAIN" := IndicatorSelectionForm]> (Forms w)))
    (NEXT_ACTIVE_FORM w)
    (IndicatorSelection_init (store w))
    (Reader.mkViewer (store w) None "Opinions" []).

Definition set_next (n : option string) (w : World) : World :=
  mkWorld (store w) (Forms w) n (indicator_select w) (viewer w).

Definition set_viewer (v : Reader.IndicatorViewerForm) (w : World) : World :=
  mkWorld (store w) (Forms w) (NEXT_ACTIVE_FORM w) (indicator_select w) v.

(** The user moves the highlight. *)
Definition set_cursor (line : nat) (w : World) : World :=
  mkWorld (store w) (Forms w) (NEXT_ACTIVE_FORM w)
    (Judge.mkSelect (Judge.values (indicator_select w))
       (Judge.value (indicator_select w)) line)
    (viewer w).

Definition switchForm (fmid : string) (w : World) : outcome unit * World :=
  (Ok (), set_next (Some fmid) w).

(** [IndicatorSelection.actionHighlighted]: the viewer form is fetched,
    renders the indicator, and is named next. *)
Definition IndicatorSelection_actionHighlighted (ind : StixObject) (w : World)
    : outcome unit * World :=
  match Forms w !! "INDICATOR" with
  | None => (Raised (KeyError "INDICATOR"), w)
  | Some _ =>
      let '(r, v) := Reader.set_indicator (Some ind) (viewer w) in
      match r with
      | Ok _ => switchForm "INDICATOR" (set_viewer v w)
      | Raised e => (Raised e, set_viewer v w)
      | Exited n => (Exited n, set_viewer v w)
      end
  end.

(** [IndicatorViewerForm.on_ok] *)
Definition IndicatorViewerForm_on_ok (w : World) : outcome unit * World :=
  switchForm "MAIN" w.

(** [IndicatorSelectionForm.on_cancel], reached from the form's button
    through [CancelForm.on_ok]. *)
Definition IndicatorSelectionForm_on_cancel (w : World) : outcome unit * World :=
  (Exited 0, w).

Definition handle (form : FormKind) (a : Action) (w : World) : outcome unit * World :=
  match form, a with
  | IndicatorSelectionForm, Button_ok => IndicatorSelectionForm_on_cancel w
  | IndicatorSelectionForm, Enter =>
      match Judge.values (indicator_select w) !! Judge.cursor_line (indicator_select w) with
      | Some ind =>
          (* the highlighted line is on the screen: [display_value] has
             read [indicator.name] to draw it *)
          match o_name ind with
          | None => (Raised AttributeError, w)
          | Some _ => IndicatorSelection_actionHighlighted ind w
          end
      | None => (Raised IndexError, w)
      end
  | IndicatorViewerForm, Button_ok => IndicatorViewerForm_on_ok w
  | IndicatorViewerForm, Enter => (Ok (), w)
  end.

(** One turn of the main loop's lookup. *)
Definition next_form (w : World) : outcome (option FormKind) :=
  match NEXT_ACTIVE_FORM w with
  | None => Ok None
  | Some fmid =>
      if bool_decide (fmid = "") then Ok None
      else match Forms w !! fmid with
           | Some f => Ok (Some f)
           | None => Raised (KeyError fmid)
           end
  end.

(** One turn of the user: the line highlighted and the action. *)
Record Input : Type := mkInput { line : nat; action : Action }.

Fixpoint main_loop (inputs : list Input) (w : World) : outcome unit * World :=
  match inputs with
  | [] => (Ok (), w)
  | i :: rest =>
      match next_form w with
      | Ok None => (Ok (), w)
      | Ok (Some f) =>
          match handle f (action i) (set_cursor (line i) w) with
          | (Ok _, w') => main_loop rest w'
          | r => r
          end
      | Raised e => (Raised e, w)
      | Exited n => (Exited n, w)
      end
  end.

(** [app.run()] *)
Definition run (inputs : list Input) (w : World) : outcome unit * World :=
  main_loop inputs (onStart w).

End ReaderApp.

(** ** Sample data

    A small bundle used to run the definitions: one identity, one
    indicator, a report, and two opinions on the indicator. *)

Module Sample.

Definition t1 : datetime := mkDatetime 2018 3 7 9 5 0 0.
Definition t2 : datetime := mkDatetime 2018 4 1 12 30 15 0.

Definition alice : StixObject :=
  mkObject "identity" "identity--a" (Some "Alice") (Some "individual")
    "alice@example.com" [] "" None t1 t1 None.

Definition ioc : StixObject :=
  mkObject "indicator" "indicator--1" (Some "Bad domain") None "" [] "" None t1 t1 None.

Definition report : StixObject :=
  mkObject "report" "report--r" (Some "Weekly") None "" ["indicator--1"] "" None
    t1 t1 None.

Definition older : StixObject :=
  mkObject "opinion" "opinion--1" None None "" ["indicator--1"] "agree"
    (Some "works well") t1 t1 (Some "identity--a").

Definition newer : StixObject :=
  mkObject "opinion" "opinion--2" None None "" ["indicator--1"] "strongly-disagree"
    (Some (String "n" (String "o" (String PyStr.LF "too noisy")))) t2 t2
    (Some "identity--a").

Definition reviewed : Bundle :=
  mkBundle "bundle--1" [alice; ioc; older; report; newer].

Definition viewer : Reader.IndicatorViewerForm :=
  Reader.mkViewer (MemoryStore_of reviewed) None "" [].

(** An authoring run on a bundle of one identity and one indicator, read
    from ["in.json"] with no [-o] option.  The vocabulary is the one of
    the library; [serialize] stands in for the library's serializer. *)
Definition allowed : list string :=
  ["strongly-disagree"; "disagree"; "neutral"; "agree"; "strongly-agree"].

Definition serialize (pretty : bool) (b : Bundle) : string :=
  (if pretty then "pretty " else "compact ")
  +:+ bundle_id b +:+ ": " +:+ PyStr.join ", " (o_id <$> objects b).

Definition env : Judge.Env := Judge.mkEnv "opinion--9" t2.

Definition authored : Bundle := mkBundle "bundle--2" [alice; ioc].

Definition disk : gmap string string :=
  {[ "in.json" := "a previous content, longer than what is written at save time, to be replaced" ]}.

Definition run (w : Judge.World) (form : Judge.FormKind) (a : Judge.Action)
    : outcome (option Judge.FormKind) * Judge.World :=
  Judge.step allowed serialize env form a w.

(** The application after [onStart]. *)
Definition started : Judge.World :=
  (Judge.onStart allowed
     (Judge.initial_world authored disk (Judge.open_output "in.json" None))).2.

(** The user check-marks line 1 (Alice) and presses enter. *)
Definition identity_checked : Judge.World :=
  Judge.set_identity_select
    (Judge.mkSelect (Judge.values (Judge.identity_select started)) [1] 1) started.

Definition identity_chosen : Judge.World :=
  (run identity_checked Judge.IdentitySelectionForm Judge.Enter).2.

(** The user presses enter on the indicator (line 0). *)
Definition indicator_chosen : Judge.World :=
  (run identity_chosen Judge.IndicatorSelectionForm Judge.Enter).2.

(** The user selects "agree" (line 3), types the explanation, and saves. *)
Definition evaluation_filled : Judge.World :=
  Judge.set_evaluation_input
    (Judge.mkSelect (Judge.values (Judge.opinion_select indicator_chosen)) [3] 3)
    "works well" indicator_chosen.

Definition saved : outcome (option Judge.FormKind) * Judge.World :=
  run evaluation_filled Judge.IndicatorEvaluationForm Judge.Button_ok.

End Sample.

(** ** What an authoring run keeps *)

Module Kept.
Import Judge.

(** The forms [onStart] registers. *)
Definition registry : gmap string FormKind :=
  <["EVALUATION" := IndicatorEvaluationForm]>
    (<["INDICATORS" := IndicatorSelectionForm]>
       (<["NEW_IDENTITY" := IdentityEntryForm]>
          (<["MAIN" := IdentitySelectionForm]> ∅))).

(** The state of a run on the bundle [parsed] between two turns, as long
    as nothing was saved: the forms and the lines they offer are those
    built by [onStart] from [parsed], the indicator under evaluation is one
    of [parsed], the bundle is [parsed] followed by identities, and the
    files and the output stream are as at the start. *)
Record invariant (allowed : list string) (parsed : Bundle)
    (fs : gmap string string) (out : File) (w : World) : Prop := mkInvariant {
  inv_forms : Forms w = registry;
  inv_identities :
    values (identity_select w)
    = None :: (Some <$> filter (λ obj, o_type obj = "identity") (objects parsed));
  inv_indicators :
    values (indicator_select w) = filter (λ obj, o_type obj = "indicator") (objects parsed);
  inv_menu : values (opinion_select w) = allowed;
  inv_eval :
    ∀ i, eval_indicator w = Some i → i ∈ objects parsed ∧ o_type i = "indicator";
  inv_bundle :
    ∃ ids, objects (bundle w) = (objects parsed ++ ids)%list
           ∧ Forall (λ o, o_type o = "identity") ids;
  inv_bundle_id : bundle_id (bundle w) = bundle_id parsed;
  inv_files : files w = fs;
  inv_output : output w = out
}.

(** How a run on [parsed] can stand when it stops: the bundle is [parsed],
    then identities, then the opinions [ops].  Either no opinion was added
    and no file was touched, or the run exited through a save: one opinion
    was added, on an indicator of [parsed] and without a creator, and the
    target holds the serialization of the final bundle. *)
Definition outcome_of_run (allowed : list string) (serialize : bool → Bundle → string)
    (parsed : Bundle) (fs : gmap string string) (target : string)
    (r : outcome unit) (w : World) : Prop :=
  ∃ ids ops : list StixObject,
    objects (bundle w) = (objects parsed ++ ids ++ ops)%list
    ∧ Forall (λ o, o_type o = "identity") ids
    ∧ ((ops = [] ∧ files w = fs)
       ∨ ∃ op ind : StixObject,
           ops = [op] ∧ r = Exited 0
           ∧ o_type op = "opinion"
           ∧ ind ∈ objects parsed ∧ o_type ind = "indicator"
           ∧ object_refs op = [o_id ind]
           ∧ opinion op ∈ allowed
           ∧ created_by_ref op = None
           ∧ files w = <[target := serialize true (bundle w)]> fs).

End Kept.

(** ** The lines the selections display *)

Module Display.

Definition TAB : string := String "009"%char EmptyString.

(** [IdentitySelection.display_value]: the line reads the identity's
    [identity_class] and [name]. *)
Definition IdentitySelection_display_value (identity : option StixObject) : outcome string :=
  match identity with
  | None => Ok "NEW IDENTITY"
  | Some i =>
      match identity_class i, o_name i with
      | Some cls, Some nm =>
          Ok (PyStr.title cls +:+ ": " +:+ nm +:+ Reader.NL +:+ TAB +:+ o_id i)
      | _, _ => Raised AttributeError
      end
  end.

(** [IndicatorSelection.display_value], the same in both tools: the line
    reads the indicator's [name]. *)
Definition IndicatorSelection_display_value (ind : StixObject) : outcome string :=
  match o_name ind with
  | Some nm => Ok (nm +:+ Reader.NL +:+ TAB +:+ o_id ind)
  | None => Raised AttributeError
  end.

End Display.

(** Whether a text contains a hyphen. *)
Fixpoint has_hyphen (s : string) : bool :=
  match s with
  | EmptyString => false
  | String c s' => Ascii.eqb c "-" || has_hyphen s'
  end.

(** ** What a review run keeps *)

Module ReaderKept.
Import ReaderApp.

(** The forms [onStart] registers. *)
Definition registry : gmap string FormKind :=
  <["INDICATOR" := IndicatorViewerForm]> (<["MAIN" := IndicatorSelectionForm]> ∅).

(** The viewer as built by [onStart]. *)
Definition blank (st : MemoryStore) : Reader.IndicatorViewerForm :=
  Reader.mkViewer st None "Opinions" [].

(** The state of a review run on the bundle [b] between two turns: the two
    forms are registered and one of them is named next, the selection
    lists the indicators of [b], and the viewer is blank or shows one of
    them. *)
Record invariant (b : Bundle) (w : World) : Prop := mkInvariant {
  inv_store : store w = MemoryStore_of b;
  inv_forms : Forms w = registry;
  inv_next : NEXT_ACTIVE_FORM w = Some "MAIN" ∨ NEXT_ACTIVE_FORM w = Some "INDICATOR";
  inv_lines :
    Judge.values (indicator_select w)
    = query (MemoryStore_of b) [ mkFilter "type" OpEq "indicator" ];
  inv_viewer :
    viewer w = blank (MemoryStore_of b)
    ∨ ∃ i, i ∈ objects b ∧ o_type i = "indicator"
           ∧ viewer w = (Reader.set_indicator (Some i) (blank (MemoryStore_of b))).2
}.

End ReaderKept.

(** ** More sample data: a bundle with an opinion that names no creator *)

Module Scenario.

Definition orphan : StixObject :=
  mkObject "opinion" "opinion--7" None None "" ["indicator--1"] "disagree"
    (Some "false positives") Sample.t1 Sample.t1 None.

Definition inconsistent : Bundle :=
  mkBundle "bundle--3" [Sample.alice; Sample.ioc; orphan; Sample.newer].

Definition viewer : Reader.IndicatorViewerForm :=
  Reader.mkViewer (MemoryStore_of inconsistent) None "Opinions" [].

(** The viewer as [onStart] builds it, on the store of a bundle. *)
Definition viewer_of (b : Bundle) : Reader.IndicatorViewerForm :=
  Reader.mkViewer (MemoryStore_of b) None "Opinions" [].

(** A bundle whose opinions stand newest first. *)
Definition descending : Bundle :=
  mkBundle "bundle--4" [Sample.newer; Sample.alice; orphan; Sample.ioc; Sample.older].

(** Two opinions under one identifier and one modification time, with
    different contents. *)
Definition first_take : StixObject :=
  mkObject "opinion" "opinion--5" None None "" ["indicator--1"] "agree"
    (Some "first") Sample.t1 Sample.t1 (Some "identity--a").

Definition second_take : StixObject :=
  mkObject "opinion" "opinion--5" None None "" ["indicator--1"] "disagree"
    (Some "second") Sample.t1 Sample.t1 (Some "identity--a").

Definition colliding : Bundle :=
  mkBundle "bundle--5" [Sample.alice; Sample.ioc; first_take; second_take].

(** Two versions of one opinion, created together and modified at
    different times, around another opinion created at the same time. *)
Definition draft : StixObject :=
  mkObject "opinion" "opinion--6" None None "" ["indicator--1"] "neutral"
    (Some "draft") Sample.t1 Sample.t1 (Some "identity--a").

Definition between : StixObject :=
  mkObject "opinion" "opinion--8" None None "" ["indicator--1"] "agree"
    (Some "between") Sample.t1 Sample.t1 (Some "identity--a").

Definition revised : StixObject :=
  mkObject "opinion" "opinion--6" None None "" ["indicator--1"] "disagree"
    (Some "revised") Sample.t1 Sample.t2 (Some "identity--a").

Definition versioned : Bundle :=
  mkBundle "bundle--6" [Sample.alice; Sample.ioc; draft; between; revised].



(** An identity whose class is written in capitals, and an opinion of
    it. *)
Definition acme : StixObject :=
  mkObject "identity" "identity--b" (Some "ACME") (Some "ORG unit")
    "soc@acme.example" [] "" None Sample.t1 Sample.t1 None.

Definition shouted : StixObject :=
  mkObject "opinion" "opinion--3" None None "" ["indicator--1"] "strongly-agree"
    (Some (String "s" (String "e" (String "e" (String "n" (String PyStr.CR
       (String PyStr.LF "twice")))))))
    Sample.t2 Sample.t2 (Some "identity--b").

Definition capitals : Bundle :=
  mkBundle "bundle--8" [acme; Sample.ioc; shouted; Sample.older; Sample.alice].

End Scenario.

(** ** The words of the claims about text *)

Module Words.

(** The place of a letter in the alphabet, whatever its case; [None] for
    a character that is no letter. *)
Definition letter_index (c : ascii) : option nat :=
  let n := nat_of_ascii c in
  if (65 <=? n)%nat && (n <=? 90)%nat then Some (n - 65)
  else if (97 <=? n)%nat && (n <=? 122)%nat then Some (n - 97)
  else None.

Definition is_letter (c : ascii) : bool :=
  match letter_index c with Some _ => true | None => false end.

(** [d] is [c] written as a capital, or as a small letter; a character
    that is no letter is left as it is. *)
Definition written_as (capital : bool) (c d : ascii) : bool :=
  match letter_index c with
  | None => Ascii.eqb d c
  | Some k => (nat_of_ascii d =? (if capital then 65 else 97) + k)%nat
  end.

(** [out] is [src] title-cased: the same characters, each letter that
    starts a word written as a capital and every other letter as a small
    letter.  [inside_word] tells that the character before is a letter. *)
Fixpoint title_cased_from (inside_word : bool) (src out : string) : bool :=
  match src, out with
  | EmptyString, EmptyString => true
  | String c src', String d out' =>
      written_as (negb inside_word) c d && title_cased_from (is_letter c) src' out'
  | _, _ => false
  end.
Definition title_cased (src out : string) : bool := title_cased_from false src out.

(** [out] is [src] with every separator (hyphen) replaced by a space. *)
Fixpoint separators_replaced (src out : string) : bool :=
  match src, out with
  | EmptyString, EmptyString => true
  | String c src', String d out' =>
      (if Ascii.eqb c "-" then Ascii.eqb d " " else Ascii.eqb d c)
      && separators_replaced src' out'
  | _, _ => false
  end.



End Words.

(** * Properties *)

(** ** Text primitives on examples *)

Example title_example :
  PyStr.title (PyStr.replace "-" " " "strongly-agree") = "Strongly Agree".
Proof. reflexivity. Qed.

Example splitlines_example :
  PyStr.splitlines
    (String "a" (String PyStr.CR (String PyStr.LF (String "b" (String PyStr.LF EmptyString)))))
  = ["a"; "b"].
Proof. reflexivity. Qed.

Example strftime_example :
  strftime (mkDatetime 2018 3 7 9 5 0 123) = "2018-03-07 09:05:00".
Proof. reflexivity. Qed.

(** ** The order on timestamps *)

Ltac nat_cases :=
  repeat match goal with
    | |- context [(?x <? ?y)%nat] => destruct (Nat.ltb_spec x y)
    | |- context [(?x =? ?y)%nat] => destruct (Nat.eqb_spec x y)
    | H : context [(?x <? ?y)%nat] |- _ => destruct (Nat.ltb_spec x y)
    | H : context [(?x =? ?y)%nat] |- _ => destruct (Nat.eqb_spec x y)
    end; simpl in *; try lia; try congruence.

Lemma lex_ltb_irrefl (a : list nat) : lex_ltb a a = false.
Proof. induction a as [|x a IH]; simpl; [done|]. nat_cases. Qed.

Lemma lex_ltb_asym (a b : list nat) : lex_ltb a b = true → lex_ltb b a = false.
Proof.
  revert b; induction a as [|x a IH]; intros [|y b]; simpl; try done.
  intros H. nat_cases. subst. by apply IH.
Qed.

Lemma lex_ltb_negtrans (a b c : list nat) :
  lex_ltb a b = false → lex_ltb b c = false → lex_ltb a c = false.
Proof.
  revert b c; induction a as [|x a IH]; intros [|y b] [|z c]; simpl; try done.
  intros H1 H2. nat_cases. subst. by apply (IH b).
Qed.

Lemma lex_ltb_tie (a b : list nat) :
  lex_ltb a b = false → lex_ltb b a = false → a = b.
Proof.
  revert b; induction a as [|x a IH]; intros [|y b]; simpl; try done.
  intros H1 H2. nat_cases. subst. f_equal. by apply IH.
Qed.

Lemma dt_fields_inj (a b : datetime) : dt_fields a = dt_fields b → a = b.
Proof. destruct a, b; unfold dt_fields; simpl. intros H; by simplify_eq. Qed.

(** Two timestamps neither of which is earlier than the other are the
    same timestamp: the ties of the sort are the equal timestamps. *)
Lemma dt_ltb_tie (a b : datetime) :
  dt_ltb a b = false → dt_ltb b a = false → a = b.
Proof. intros H1 H2. apply dt_fields_inj. by apply lex_ltb_tie. Qed.

Lemma dt_ltb_irrefl (a : datetime) : dt_ltb a a = false.
Proof. apply lex_ltb_irrefl. Qed.

(** ** The stable descending sort *)

Section SortDescFacts.
  Context {A K : Type} (key : A → K) (ltb : K → K → bool).
  Hypothesis ltb_asym : ∀ a b, ltb a b = true → ltb b a = false.
  Hypothesis ltb_negtrans : ∀ a b c, ltb a b = false → ltb b c = false → ltb a c = false.

Local Abbreviation desc := (desc key ltb).

Lemma insert_desc_perm (x : A) (l : list A) : insert_desc key ltb x l ≡ₚ x :: l.
Proof.
  induction l as [|y l IH]; simpl; [done|].
  destruct (ltb (key x) (key y)); [|done].
  rewrite IH. apply Permutation_swap.
Qed.

Lemma sort_desc_perm (l : list A) : sort_desc key ltb l ≡ₚ l.
Proof.
  induction l as [|x l IH]; simpl; [done|].
  rewrite insert_desc_perm. by rewrite IH.
Qed.

Lemma insert_desc_sorted (x : A) (l : list A) :
  StronglySorted desc l → StronglySorted desc (insert_desc key ltb x l).
Proof.
  induction 1 as [|y l Hs IH Hy]; simpl.
  - repeat constructor.
  - destruct (ltb (key x) (key y)) eqn:Hxy.
    + constructor; [done|].
      rewrite insert_desc_perm. constructor; [|done].
      by apply ltb_asym.
    + constructor; [by constructor|].
      constructor; [done|].
      eapply Forall_impl; [exact Hy|].
      intros z Hz. by apply (ltb_negtrans _ (key y)).
Qed.

Lemma sort_desc_sorted (l : list A) : StronglySorted desc (sort_desc key ltb l).
Proof.
  induction l as [|x l IH]; simpl; [constructor|].
  by apply insert_desc_sorted.
Qed.

(** Inserting moves [x] only past elements with a greater key, so the
    elements of any one key keep their order. *)
Lemma insert_desc_filter (P : A → Prop) `{!∀ a, Decision (P a)} (x : A) (l : list A) :
  (∀ y, ltb (key x) (key y) = true → P x → P y → False) →
  filter P (insert_desc key ltb x l) = filter P (x :: l).
Proof.
  intros Hsep. induction l as [|y l IH]; simpl; [done|].
  destruct (ltb (key x) (key y)) eqn:Hxy; [|done].
  rewrite filter_cons, IH, !filter_cons.
  destruct (decide (P y)) as [Hy|Hy], (decide (P x)) as [Hx|Hx]; try done.
  destruct (Hsep y Hxy Hx Hy).
Qed.

Lemma sort_desc_filter (P : A → Prop) `{!∀ a, Decision (P a)} (l : list A) :
  (∀ x y, ltb (key x) (key y) = true → P x → P y → False) →
  filter P (sort_desc key ltb l) = filter P l.
Proof.
  intros Hsep. induction l as [|x l IH]; simpl; [done|].
  rewrite insert_desc_filter by eauto.
  by rewrite !filter_cons, IH.
Qed.

End SortDescFacts.

(** ** The store *)

Section DictFacts.
Context {K V : Type} `{EqDecision K}.

Lemma dict_set_fresh (k : K) (v : V) (d : list (K * V)) :
  dict_get k d = None → dict_set k v d = (d ++ [(k, v)])%list.
Proof.
  induction d as [|[k' v'] d IH]; simpl; [done|].
  destruct (decide (k' = k)); [done|]. intros H. by rewrite IH.
Qed.

Lemma dict_set_present (k : K) (v v0 : V) (d : list (K * V)) :
  dict_get k d = Some v0 →
  ∃ d1 d2, d = (d1 ++ (k, v0) :: d2)%list
           ∧ dict_set k v d = (d1 ++ (k, v) :: d2)%list.
Proof.
  induction d as [|[k' v'] d IH]; simpl; [done|].
  destruct (decide (k' = k)) as [->|Hne].
  - intros [= ->]. by exists [], d.
  - intros H. destruct (IH H) as (d1 & d2 & -> & ->).
    by exists ((k', v') :: d1), d2.
Qed.

Lemma dict_get_elem_of (k : K) (v : V) (d : list (K * V)) :
  dict_get k d = Some v → (k, v) ∈ d.
Proof.
  induction d as [|[k' v'] d IH]; simpl; [done|].
  destruct (decide (k' = k)) as [->|Hne].
  - intros [= ->]. by left.
  - intros H. right. by apply IH.
Qed.

Lemma dict_get_is_Some (k : K) (v : V) (d : list (K * V)) :
  (k, v) ∈ d → is_Some (dict_get k d).
Proof.
  induction d as [|[k' v'] d IH]; simpl; [by intros H%elem_of_nil|].
  intros H. destruct (decide (k' = k)); [by eexists|].
  apply elem_of_cons in H as [[= -> ->]|H]; [done|]. by apply IH.
Qed.

Lemma elem_of_dict_set (k : K) (v : V) (d : list (K * V)) (p : K * V) :
  p ∈ dict_set k v d → p = (k, v) ∨ p ∈ d.
Proof.
  induction d as [|[k' v'] d IH]; simpl.
  - intros H%list_elem_of_singleton. by left.
  - destruct (decide (k' = k)) as [->|Hne].
    + intros [->|H]%elem_of_cons; [by left|]. right. by right.
    + intros [->|H]%elem_of_cons; [right; by left|].
      destruct (IH H) as [->|?]; [by left|]. right. by right.
Qed.

Lemma dict_set_elem_of (k : K) (v : V) (d : list (K * V)) : (k, v) ∈ dict_set k v d.
Proof.
  induction d as [|[k' v'] d IH]; simpl; [by left|].
  destruct (decide (k' = k)); [by left|]. by right.
Qed.

End DictFacts.

(** What holds of every store built by adding objects: a family is kept
    under the identifier of its versions, a version under its
    modification time, and no family is empty. *)
Definition store_wf (st : MemoryStore) : Prop :=
  ∀ k f, (k, f) ∈ store_data st →
    all_versions f ≠ []
    ∧ ∀ m o, (m, o) ∈ all_versions f → o_id o = k ∧ modified o = m.

Lemma elem_of_all_objects (st : MemoryStore) (o : StixObject) :
  o ∈ all_objects st
  ↔ ∃ k f m, (k, f) ∈ store_data st ∧ (m, o) ∈ all_versions f.
Proof.
  unfold all_objects, dict_values. rewrite list_elem_of_bind. split.
  - intros (f & Ho & Hf).
    apply list_elem_of_fmap in Hf as ([k f'] & -> & Hf).
    apply list_elem_of_fmap in Ho as ([m o'] & -> & Ho).
    by exists k, f', m.
  - intros (k & f & m & Hf & Ho). exists f. split.
    + apply list_elem_of_fmap. by exists (m, o).
    + apply list_elem_of_fmap. by exists (k, f).
Qed.

Lemma family_add_versions (f : option ObjectFamily) (x : StixObject) (p : datetime * StixObject) :
  p ∈ all_versions (family_add f x) →
  p = (modified x, x) ∨ ∃ f0, f = Some f0 ∧ p ∈ all_versions f0.
Proof.
  destruct f as [f0|]; simpl.
  - intros [->|H]%elem_of_dict_set; [by left|]. right. by exists f0.
  - intros H%list_elem_of_singleton. by left.
Qed.

Lemma family_add_holds (f : option ObjectFamily) (x : StixObject) :
  (modified x, x) ∈ all_versions (family_add f x).
Proof. destruct f; simpl; [apply dict_set_elem_of|by left]. Qed.

(** Adding an object brings nothing but that object into the store. *)
Lemma elem_of_all_objects_add (st : MemoryStore) (x o : StixObject) :
  o ∈ all_objects (MemoryStore_add st x) → o = x ∨ o ∈ all_objects st.
Proof.
  rewrite !elem_of_all_objects. intros (k & f & m & Hf & Ho).
  apply elem_of_dict_set in Hf as [[= -> ->]|Hf].
  - apply family_add_versions in Ho as [[= _ ->]|(f0 & Hget & Ho)]; [by left|].
    right. exists (o_id x), f0, m. split; [|done]. by apply dict_get_elem_of.
  - right. by exists k, f, m.
Qed.

(** The object added last is in the store. *)
Lemma all_objects_add_holds (st : MemoryStore) (x : StixObject) :
  x ∈ all_objects (MemoryStore_add st x).
Proof.
  apply elem_of_all_objects. eexists (o_id x), _, (modified x). split.
  - apply dict_set_elem_of.
  - apply family_add_holds.
Qed.

Lemma store_wf_add (st : MemoryStore) (x : StixObject) :
  store_wf st → store_wf (MemoryStore_add st x).
Proof.
  intros Hwf k f Hf. apply elem_of_dict_set in Hf as [[= -> ->]|Hf]; [|by apply Hwf].
  split.
  - pose proof (family_add_holds (dict_get (o_id x) (store_data st)) x) as H.
    intros Hnil. rewrite Hnil in H. by apply elem_of_nil in H.
  - intros m o [[= -> ->]|(f0 & Hget & Ho)]%family_add_versions; [done|].
    apply dict_get_elem_of in Hget. by apply (Hwf _ _ Hget).
Qed.

Lemma store_wf_empty : store_wf (mkStore []).
Proof. intros k f H. by apply elem_of_nil in H. Qed.

Lemma store_wf_foldl (l : list StixObject) (st : MemoryStore) :
  store_wf st → store_wf (foldl MemoryStore_add st l).
Proof.
  revert st; induction l as [|x l IH]; intros st Hwf; simpl; [done|].
  by apply IH, store_wf_add.
Qed.

Lemma all_objects_foldl (l : list StixObject) (st : MemoryStore) (o : StixObject) :
  o ∈ all_objects (foldl MemoryStore_add st l) → o ∈ all_objects st ∨ o ∈ l.
Proof.
  revert st; induction l as [|x l IH]; intros st; simpl; [by left|].
  intros [H|H]%IH; [|right; by right].
  apply elem_of_all_objects_add in H as [->|H]; [right; by left|by left].
Qed.

(** Every object the store of a bundle holds is an object of the bundle. *)
Lemma all_objects_of_bundle (b : Bundle) (o : StixObject) :
  o ∈ all_objects (MemoryStore_of b) → o ∈ objects b.
Proof.
  intros [H|H]%all_objects_foldl; [|done]. by apply elem_of_nil in H.
Qed.

(** The last object of a bundle is in its store. *)
Lemma last_object_stored (b : Bundle) (l : list StixObject) (x : StixObject) :
  objects b = (l ++ [x])%list → x ∈ all_objects (MemoryStore_of b).
Proof.
  intros Hb. unfold MemoryStore_of. rewrite Hb, foldl_app. simpl.
  apply all_objects_add_holds.
Qed.

Lemma all_objects_app (d1 d2 : list (string * ObjectFamily)) :
  all_objects (mkStore (d1 ++ d2))
  = (all_objects (mkStore d1) ++ all_objects (mkStore d2))%list.
Proof. unfold all_objects, dict_values; simpl. by rewrite fmap_app, bind_app. Qed.

Lemma all_objects_cons (k : string) (f : ObjectFamily) (d : list (string * ObjectFamily)) :
  all_objects (mkStore ((k, f) :: d))
  = (dict_values (all_versions f) ++ all_objects (mkStore d))%list.
Proof. done. Qed.

(** An object whose identifier and modification time no stored version
    has is added as a further version: after the versions kept under its
    identifier, or after every object when the identifier is new. *)
Lemma all_objects_add_new_version (st : MemoryStore) (x : StixObject) :
  store_wf st →
  version_key x ∉ version_key <$> all_objects st →
  all_objects (MemoryStore_add st x) ≡ₚ (all_objects st ++ [x])%list.
Proof.
  intros Hwf Hnew. destruct st as [d]. unfold MemoryStore_add; simpl store_data.
  destruct (dict_get (o_id x) d) as [f|] eqn:Hget.
  - destruct (dict_set_present (o_id x) (family_add (Some f) x) f d Hget)
      as (d1 & d2 & Hd & ->).
    assert (Hfresh : dict_get (modified x) (all_versions f) = None).
    { destruct (dict_get (modified x) (all_versions f)) as [o|] eqn:Ho; [|done].
      exfalso. apply Hnew. apply dict_get_elem_of in Ho.
      apply list_elem_of_fmap. exists o. split.
      - apply dict_get_elem_of in Hget.
        destruct (Hwf _ _ Hget) as [_ Hv]. destruct (Hv _ _ Ho) as [Hid Hm].
        unfold version_key. by rewrite Hid, Hm.
      - apply elem_of_all_objects. exists (o_id x), f, (modified x).
        split; [|done]. by apply dict_get_elem_of. }
    rewrite Hd, !all_objects_app, !all_objects_cons. simpl all_versions.
    rewrite (dict_set_fresh _ _ _ Hfresh). unfold dict_values.
    rewrite fmap_app. simpl. rewrite <- !app_assoc. f_equiv. f_equiv.
    simpl. apply Permutation_cons_append.
  - rewrite (dict_set_fresh _ _ _ Hget), all_objects_app. by rewrite all_objects_cons.
Qed.

(** An object with a new identifier goes after all the others. *)
Lemma all_objects_add_new_id (st : MemoryStore) (x : StixObject) :
  store_wf st →
  o_id x ∉ o_id <$> all_objects st →
  all_objects (MemoryStore_add st x) = (all_objects st ++ [x])%list.
Proof.
  intros Hwf Hnew. destruct st as [d]. unfold MemoryStore_add; simpl store_data.
  destruct (dict_get (o_id x) d) as [f|] eqn:Hget.
  - exfalso. apply Hnew. apply dict_get_elem_of in Hget.
    destruct (Hwf _ _ Hget) as [Hne Hv].
    destruct (all_versions f) as [|[m o] vs] eqn:Hvs; [done|].
    apply list_elem_of_fmap. exists o. split.
    + symmetry. apply (Hv m o). by left.
    + apply elem_of_all_objects. exists (o_id x), f, m. split; [done|].
      rewrite Hvs. by left.
  - rewrite (dict_set_fresh _ _ _ Hget), all_objects_app. by rewrite all_objects_cons.
Qed.

Lemma all_objects_foldl_perm (l : list StixObject) (st : MemoryStore) :
  store_wf st →
  NoDup (version_key <$> (all_objects st ++ l)%list) →
  all_objects (foldl MemoryStore_add st l) ≡ₚ (all_objects st ++ l)%list.
Proof.
  revert st; induction l as [|x l IH]; intros st Hwf Hnd; simpl.
  { by rewrite app_nil_r. }
  assert (Hx : version_key x ∉ version_key <$> all_objects st).
  { rewrite fmap_app, fmap_cons in Hnd. apply NoDup_app in Hnd as (_ & Hdis & _).
    intros Hin. apply (Hdis _ Hin). by left. }
  pose proof (all_objects_add_new_version st x Hwf Hx) as Hp.
  rewrite IH.
  - rewrite Hp, <- app_assoc. done.
  - by apply store_wf_add.
  - rewrite Hp, <- app_assoc. done.
Qed.

Lemma all_objects_foldl_eq (l : list StixObject) (st : MemoryStore) :
  store_wf st →
  NoDup (o_id <$> (all_objects st ++ l)%list) →
  all_objects (foldl MemoryStore_add st l) = (all_objects st ++ l)%list.
Proof.
  revert st; induction l as [|x l IH]; intros st Hwf Hnd; simpl.
  { by rewrite app_nil_r. }
  assert (Hx : o_id x ∉ o_id <$> all_objects st).
  { rewrite fmap_app, fmap_cons in Hnd. apply NoDup_app in Hnd as (_ & Hdis & _).
    intros Hin. apply (Hdis _ Hin). by left. }
  pose proof (all_objects_add_new_id st x Hwf Hx) as Hp.
  rewrite IH.
  - rewrite Hp, <- app_assoc. done.
  - by apply store_wf_add.
  - rewrite Hp, <- app_assoc. done.
Qed.

(** When no two objects of a bundle share both identifier and
    modification time, the store holds exactly the objects of the bundle. *)
Lemma all_objects_versions (b : Bundle) :
  NoDup (version_key <$> objects b) → all_objects (MemoryStore_of b) ≡ₚ objects b.
Proof.
  intros Hnd. unfold MemoryStore_of.
  rewrite all_objects_foldl_perm; [done|apply store_wf_empty|done].
Qed.

(** When the identifiers of a bundle are unique, the store lists the
    objects in bundle order. *)
Lemma all_objects_unique_ids (b : Bundle) :
  NoDup (o_id <$> objects b) → all_objects (MemoryStore_of b) = objects b.
Proof.
  intros Hnd. unfold MemoryStore_of.
  rewrite all_objects_foldl_eq; [done|apply store_wf_empty|done].
Qed.

Lemma unique_ids_versions (l : list StixObject) :
  NoDup (o_id <$> l) → NoDup (version_key <$> l).
Proof.
  intros H. apply (NoDup_fmap_1 fst). by rewrite <- list_fmap_compose.
Qed.

(** ** The review query *)

Lemma opinion_filters_spec (i o : StixObject) :
  forallb (λ f, check_filter f o)
    [ mkFilter "type" OpEq "opinion";
      mkFilter "object_refs" OpContains (o_id i) ] = true
  ↔ is_opinion_on i o.
Proof.
  unfold is_opinion_on, check_filter, get_property; simpl.
  destruct (object_refs o) as [|r rs] eqn:Hrefs; simpl.
  - rewrite andb_false_r. split; [done|]. intros [_ H]. by apply elem_of_nil in H.
  - rewrite andb_true_r, andb_true_iff, !bool_decide_eq_true. done.
Qed.

(** The two filters select, among the versions the store holds, the
    opinions on the indicator, in the order of the store. *)
Lemma query_opinions (st : MemoryStore) (i : StixObject) :
  query st
    [ mkFilter "type" OpEq "opinion";
      mkFilter "object_refs" OpContains (o_id i) ]
  = filter (is_opinion_on i) (all_objects st).
Proof.
  unfold query.
  induction (all_objects st) as [|o l IH]; [done|].
  rewrite !filter_cons, IH.
  destruct (decide (is_opinion_on i o)) as [H|H].
  - rewrite decide_True; [done|]. by apply opinion_filters_spec.
  - rewrite decide_False; [done|]. by rewrite opinion_filters_spec.
Qed.

Lemma elem_of_opinionsFor (st : MemoryStore) (i o : StixObject) :
  o ∈ opinionsFor st i ↔ o ∈ all_objects st ∧ is_opinion_on i o.
Proof.
  unfold opinionsFor. by rewrite sort_desc_perm, query_opinions, list_elem_of_filter, (comm and).
Qed.

(** When no two objects of the bundle share both identifier and
    modification time, the opinions returned are those of the bundle,
    rearranged. *)
Lemma opinionsFor_perm (B : Bundle) (i : StixObject) :
  NoDup (version_key <$> objects B) →
  opinionsFor (MemoryStore_of B) i ≡ₚ filter (is_opinion_on i) (objects B).
Proof.
  intros Hnd. unfold opinionsFor. rewrite sort_desc_perm, query_opinions.
  by rewrite (all_objects_versions B Hnd).
Qed.

(** C2.  For every bundle and indicator, every object [opinionsFor]
    returns is an object of the bundle that has type opinion and whose
    [object_refs] contain the indicator's identifier.  When no two objects
    of the bundle share both identifier and modification time, the result
    is a rearrangement of exactly those objects of the bundle, so an object
    is returned if and only if it is such an object. *)
Theorem opinionsFor_exact (B : Bundle) (i : StixObject) :
  (∀ o, o ∈ opinionsFor (MemoryStore_of B) i
        → o ∈ objects B ∧ o_type o = "opinion" ∧ o_id i ∈ object_refs o)
  ∧ (NoDup (version_key <$> objects B) →
     opinionsFor (MemoryStore_of B) i ≡ₚ filter (is_opinion_on i) (objects B)
     ∧ ∀ o, o ∈ opinionsFor (MemoryStore_of B) i
            ↔ o ∈ objects B ∧ o_type o = "opinion" ∧ o_id i ∈ object_refs o).
Proof.
  split.
  - intros o [Hin Hop]%elem_of_opinionsFor. split; [|exact Hop].
    by apply all_objects_of_bundle.
  - intros Hnd.
    pose proof (opinionsFor_perm B i Hnd) as Hp.
    split; [exact Hp|].
    intros o. rewrite Hp, list_elem_of_filter. unfold is_opinion_on. tauto.
Qed.

Lemma opinionsFor_exact_witness :
  opinionsFor (MemoryStore_of Sample.reviewed) Sample.ioc
  ≡ₚ filter (is_opinion_on Sample.ioc) (objects Sample.reviewed)
  ∧ ∀ o, o ∈ opinionsFor (MemoryStore_of Sample.reviewed) Sample.ioc
         ↔ o ∈ objects Sample.reviewed ∧ o_type o = "opinion"
           ∧ o_id Sample.ioc ∈ object_refs o.
Proof.
  apply (proj2 (opinionsFor_exact Sample.reviewed Sample.ioc)).
  apply (bool_decide_unpack _). vm_compute. reflexivity.
Defined.

(** Two objects of a bundle under one identifier and one modification
    time: the store keeps the one added last, and the query does not
    return the other, an opinion of the bundle on the indicator. *)
Theorem opinionsFor_exact_counterexample :
  Sample.ioc ∈ objects Scenario.colliding
  ∧ Scenario.first_take ∈ objects Scenario.colliding
  ∧ o_type Scenario.first_take = "opinion"
  ∧ o_id Sample.ioc ∈ object_refs Scenario.first_take
  ∧ opinionsFor (MemoryStore_of Scenario.colliding) Sample.ioc = [Scenario.second_take]
  ∧ Scenario.first_take ∉ opinionsFor (MemoryStore_of Scenario.colliding) Sample.ioc.
Proof.
  assert (H : opinionsFor (MemoryStore_of Scenario.colliding) Sample.ioc
              = [Scenario.second_take]) by (by vm_compute).
  repeat apply conj; try exact H.
  - simpl. right. by left.
  - simpl. do 2 right. by left.
  - reflexivity.
  - simpl. by left.
  - rewrite H. intros Hin%list_elem_of_singleton. discriminate Hin.
Qed.

Lemma dt_ltb_false (a b : datetime) :
  dt_ltb a b = false → a = b ∨ dt_ltb b a = true.
Proof.
  intros H. destruct (dt_ltb b a) eqn:Hba; [by right|].
  left. by apply dt_ltb_tie.
Qed.

Lemma opinionsFor_sorted (st : MemoryStore) (i : StixObject) :
  StronglySorted created_not_before (opinionsFor st i).
Proof.
  unfold opinionsFor. rewrite query_opinions.
  assert (Hs : StronglySorted (desc created dt_ltb)
                 (sort_desc created dt_ltb (filter (is_opinion_on i) (all_objects st)))).
  { apply sort_desc_sorted.
    - intros a b. apply lex_ltb_asym.
    - intros a b c. apply lex_ltb_negtrans. }
  induction Hs as [|a l Hs IH Ha]; constructor; [done|].
  eapply Forall_impl; [exact Ha|].
  intros b Hab. by apply dt_ltb_false.
Qed.

Lemma opinionsFor_stable (st : MemoryStore) (i : StixObject) (t : datetime) :
  filter (λ o, created o = t) (opinionsFor st i)
  = filter (λ o, created o = t) (filter (is_opinion_on i) (all_objects st)).
Proof.
  unfold opinionsFor. rewrite query_opinions. apply sort_desc_filter.
  intros x y Hlt Hx Hy. rewrite Hx, Hy in Hlt.
  by rewrite dt_ltb_irrefl in Hlt.
Qed.

(** C3.  The sequence returned by [opinionsFor] is non-increasing by
    creation timestamp: every opinion in it was created at the same time
    as, or later than, each opinion that follows it.  The sort is stable:
    for each timestamp, the returned opinions created at it appear exactly
    as the store lists them; when the identifiers of the bundle are unique,
    that is exactly as they are ordered in the bundle. *)
Theorem opinionsFor_sorted_stable (B : Bundle) (i : StixObject) :
  StronglySorted created_not_before (opinionsFor (MemoryStore_of B) i)
  ∧ (∀ t, filter (λ o, created o = t) (opinionsFor (MemoryStore_of B) i)
          = filter (λ o, created o = t)
              (filter (is_opinion_on i) (all_objects (MemoryStore_of B))))
  ∧ (NoDup (o_id <$> objects B) →
     ∀ t, filter (λ o, created o = t) (opinionsFor (MemoryStore_of B) i)
          = filter (λ o, created o = t) (filter (is_opinion_on i) (objects B))).
Proof.
  split; [apply opinionsFor_sorted|]. split; [apply opinionsFor_stable|].
  intros Hnd t. by rewrite opinionsFor_stable, (all_objects_unique_ids B Hnd).
Qed.

Lemma opinionsFor_sorted_stable_witness :
  filter (λ o, created o = Sample.t1)
    (opinionsFor (MemoryStore_of Sample.reviewed) Sample.ioc)
  = filter (λ o, created o = Sample.t1)
      (filter (is_opinion_on Sample.ioc) (objects Sample.reviewed)).
Proof.
  apply (proj2 (proj2 (opinionsFor_sorted_stable Sample.reviewed Sample.ioc))).
  apply (bool_decide_unpack _). vm_compute. reflexivity.
Defined.

(** Two versions of one opinion around another opinion, all created at
    the same time: the store keeps the versions together, so the later
    version is returned before the opinion that precedes it in the
    bundle. *)
Theorem opinionsFor_sorted_stable_counterexample :
  filter (is_opinion_on Sample.ioc) (objects Scenario.versioned)
  = [Scenario.draft; Scenario.between; Scenario.revised]
  ∧ created Scenario.between = created Scenario.revised
  ∧ opinionsFor (MemoryStore_of Scenario.versioned) Sample.ioc
    = [Scenario.draft; Scenario.revised; Scenario.between]
  ∧ filter (λ o, created o = Sample.t1)
      (opinionsFor (MemoryStore_of Scenario.versioned) Sample.ioc)
    ≠ filter (λ o, created o = Sample.t1)
        (filter (is_opinion_on Sample.ioc) (objects Scenario.versioned)).
Proof.
  repeat apply conj; by vm_compute.
Qed.

(** On the sample bundle the later opinion comes first; the report on the
    indicator, which is no opinion, is left out. *)
Example opinionsFor_sample :
  opinionsFor (MemoryStore_of Sample.reviewed) Sample.ioc = [Sample.newer; Sample.older].
Proof. by vm_compute. Qed.

(** Equal timestamps: the bundle order is kept. *)
Example opinionsFor_ties :
  let twin := mkObject "opinion" "opinion--3" None None "" ["indicator--1"] "neutral"
                (Some "") Sample.t1 Sample.t1 (Some "identity--a") in
  opinionsFor (MemoryStore_of (mkBundle "b" [twin; Sample.newer; Sample.older])) Sample.ioc
  = [Sample.newer; twin; Sample.older]
  ∧ opinionsFor (MemoryStore_of (mkBundle "b" [Sample.older; Sample.newer; twin])) Sample.ioc
    = [Sample.newer; Sample.older; twin].
Proof. by vm_compute. Qed.

(** The store keeps an exact duplicate once, and the creator it resolves
    is the latest version kept under the identifier. *)
Example store_versions :
  all_objects (MemoryStore_of (mkBundle "b" [Sample.alice; Sample.ioc; Sample.alice]))
  = [Sample.alice; Sample.ioc]
  ∧ all_objects (MemoryStore_of Scenario.versioned)
    = [Sample.alice; Sample.ioc; Scenario.draft; Scenario.revised; Scenario.between]
  ∧ store_get (MemoryStore_of Scenario.versioned) "opinion--6" = Some Scenario.revised.
Proof. by vm_compute. Qed.
(** ** Printed timestamps *)

Lemma digit_code (n : nat) : nat_of_ascii (digit n) = 48 + n mod 10.
Proof.
  unfold digit. apply nat_ascii_embedding.
  pose proof (Nat.mod_upper_bound n 10). lia.
Qed.

Lemma is_digit_digit (n : nat) : is_digit (digit n) = true.
Proof.
  unfold is_digit. rewrite digit_code.
  pose proof (Nat.mod_upper_bound n 10).
  apply andb_true_iff; split; apply Nat.leb_le; lia.
Qed.

Lemma decimal_pad2 (n : nat) : n < 100 → decimal (pad2 n) = Some n.
Proof.
  intros Hn. unfold decimal, pad2. cbn [decimal_from].
  rewrite !is_digit_digit, !digit_code. f_equal.
  rewrite (Nat.mod_small (n / 10) 10) by (apply Nat.Div0.div_lt_upper_bound; lia).
  pose proof (Nat.div_mod_eq n 10). lia.
Qed.

Lemma decimal_pad4 (n : nat) : n < 100 * 100 → decimal (pad4 n) = Some n.
Proof.
  intros Hn. unfold decimal, pad4, pad2. cbn [decimal_from].
  rewrite !is_digit_digit, !digit_code. f_equal.
  assert (E1 : n / 10 = 10 * (n / 100) + (n / 10) mod 10).
  { replace (n / 100) with (n / 10 / 10) by (by rewrite Nat.Div0.div_div).
    apply Nat.div_mod_eq. }
  assert (E2 : n / 100 = 10 * (n / 1000) + (n / 100) mod 10).
  { replace (n / 1000) with (n / 100 / 10) by (by rewrite Nat.Div0.div_div).
    apply Nat.div_mod_eq. }
  assert (E3 : (n / 1000) mod 10 = n / 1000).
  { apply Nat.mod_small. apply Nat.Div0.div_lt_upper_bound. lia. }
  pose proof (Nat.div_mod_eq n 10) as E0.
  rewrite E3.
  lia.
Qed.


(** ** Lines of the rendered explanation *)



Lemma str_app_empty (s : string) : s +:+ EmptyString = s.
Proof.
  induction s as [|c s IH]; [done|].
  change (String c (s +:+ EmptyString) = String c s). by rewrite IH.
Qed.

Lemma split_lf_nonempty (s : string) : ∃ l rest, PyStr.split_lf s = l :: rest.
Proof.
  induction s as [|c s (l & rest & IH)]; simpl; [by eexists _, _|].
  destruct (Ascii.eqb c PyStr.LF); [by eexists _, _|].
  rewrite IH. by eexists _, _.
Qed.

Lemma split_lf_prepend (p s : string) :
  PyStr.has_lf p = false →
  PyStr.split_lf (p +:+ s)
  = match PyStr.split_lf s with
    | [] => [p]
    | l :: rest => (p +:+ l) :: rest
    end.
Proof.
  destruct (split_lf_nonempty s) as (l0 & rest0 & Hs).
  induction p as [|c p IH]; simpl.
  - intros _. by rewrite Hs.
  - intros H. apply orb_false_iff in H as [Hc Hp].
    rewrite Hc, (IH Hp), Hs. done.
Qed.

Lemma split_lf_single (p : string) : PyStr.has_lf p = false → PyStr.split_lf p = [p].
Proof.
  induction p as [|c p IH]; simpl; [done|].
  intros H. apply orb_false_iff in H as [Hc Hp]. by rewrite Hc, (IH Hp).
Qed.


Lemma has_lf_app (a b : string) :
  PyStr.has_lf (a +:+ b) = PyStr.has_lf a || PyStr.has_lf b.
Proof. induction a as [|c a IH]; simpl; [done|]. by rewrite IH, orb_assoc. Qed.

(** The lines of the rendered explanation: the first line of the text
    carries the indent twice, every further line once; an explanation
    without lines renders as the indent alone. *)

Lemma str_length_app (a b : string) :
  String.length (a +:+ b) = String.length a + String.length b.
Proof.
  induction a as [|c a IH]; [done|].
  change (S (String.length (a +:+ b)) = S (String.length a + String.length b)).
  by rewrite IH.
Qed.





(** ** Title-cased text *)







(** A text has one title-cased form. *)
Lemma written_as_inj (capital : bool) (c d d' : ascii) :
  Words.written_as capital c d = true → Words.written_as capital c d' = true → d = d'.
Proof.
  unfold Words.written_as. destruct (Words.letter_index c) as [k|].
  - intros H1%Nat.eqb_eq H2%Nat.eqb_eq.
    rewrite <- (ascii_nat_embedding d), <- (ascii_nat_embedding d'). congruence.
  - intros H1%Ascii.eqb_eq H2%Ascii.eqb_eq. congruence.
Qed.

Lemma title_cased_from_inj (inside_word : bool) (s t t' : string) :
  Words.title_cased_from inside_word s t = true →
  Words.title_cased_from inside_word s t' = true → t = t'.
Proof.
  revert inside_word t t'; induction s as [|c s IH]; intros b [|d t] [|d' t']; simpl; try done.
  intros [H1 H2]%andb_true_iff [H1' H2']%andb_true_iff.
  f_equal; [by eapply written_as_inj|by eapply IH].
Qed.

Example title_cased_examples :
  PyStr.title "ORG unit" = "Org Unit"
  ∧ Words.title_cased "ORG unit" "Org Unit" = true
  ∧ Words.title_cased "ORG unit" "ORG Unit" = false
  ∧ Words.title_cased "individual" "individual" = false
  ∧ Words.separators_replaced "strongly-agree" "strongly agree" = true
  ∧ Words.separators_replaced "strongly-agree" "strongly-agree" = false.
Proof. repeat apply conj; reflexivity. Qed.

(** ** The rendered report *)


(** A turn of the loop extends the pager exactly for the opinions that
    carry what it reads. *)
Lemma render_one_renderable (st : MemoryStore) (op : StixObject) :
  renderable st op ↔ is_Some (Reader.render_one st op).
Proof.
  unfold renderable, Reader.render_one. split.
  - intros (c & nm & cls & e & -> & Hn & Hcls & ->). rewrite Hn, Hcls. by eexists.
  - destruct (creator_of st op) as [c|]; [|by intros [? [=]]].
    destruct (explanation op) as [e|]; [|by intros [? [=]]].
    destruct (o_name c) as [nm|] eqn:Hn; [|by intros [? [=]]].
    destruct (identity_class c) as [cls|] eqn:Hcls; [|by intros [? [=]]].
    intros _. by exists c, nm, cls, e.
Qed.

Lemma render_one_length (st : MemoryStore) (op : StixObject) (entries : list string) :
  Reader.render_one st op = Some entries → length entries = 7.
Proof.
  unfold Reader.render_one. intros H.
  repeat match type of H with
         | match ?x with _ => _ end = _ => destruct x; try discriminate H
         end.
  by injection H as <-.
Qed.

Lemma render_blocks (st : MemoryStore) (ops : list StixObject)
    (blocks : list (list string)) (buf : list string) :
  mapM (Reader.render_one st) ops = Some blocks →
  Reader.render st ops buf = (Ok (), (buf ++ mjoin blocks)%list).
Proof.
  revert blocks buf; induction ops as [|op ops IH]; intros blocks buf; simpl.
  - intros [= <-]. simpl. by rewrite app_nil_r.
  - destruct (Reader.render_one st op) as [b|]; [|done]. simpl.
    destruct (mapM (Reader.render_one st) ops) as [bs|] eqn:Hbs; [|done]. simpl.
    intros [= <-]. rewrite (IH bs) by done.
    f_equal. simpl. by rewrite <- app_assoc.
Qed.

Lemma mapM_render_one (st : MemoryStore) (ops : list StixObject) :
  Forall (renderable st) ops →
  ∃ blocks, mapM (Reader.render_one st) ops = Some blocks.
Proof.
  intros H. apply (mapM_is_Some_2 (Reader.render_one st)).
  eapply Forall_impl; [exact H|]. intros op. apply render_one_renderable.
Qed.

Lemma length_blocks (blocks : list (list string)) :
  Forall (λ b, length b = 7) blocks → length (mjoin blocks) = 7 * length blocks.
Proof.
  induction 1 as [|b bs Hb _ IH]; [done|].
  simpl. rewrite length_app, Hb, IH. lia.
Qed.


Lemma mapM_blocks (st : MemoryStore) (ops : list StixObject) (blocks : list (list string)) :
  mapM (Reader.render_one st) ops = Some blocks →
  length blocks = length ops
  ∧ Forall (λ b, length b = 7) blocks
  ∧ ∀ k op, ops !! k = Some op → blocks !! k = Reader.render_one st op.
Proof.
  intros H%mapM_Some_1. split; [symmetry; by eapply Forall2_length|]. split.
  - induction H as [|op b ops bs Hb _ IH]; constructor; [|done].
    by eapply render_one_length.
  - intros k op Hk.
    destruct (Forall2_lookup_l _ _ _ _ _ H Hk) as (b & Hb & Hr). by rewrite Hb, Hr.
Qed.


(** What [set_indicator] leaves when the indicator has a name and the
    loop extends the pager for every opinion. *)
Lemma set_indicator_blocks (i : StixObject) (i_name : string)
    (form : Reader.IndicatorViewerForm) (blocks : list (list string)) :
  o_name i = Some i_name →
  mapM (Reader.render_one (Reader.store form)) (opinionsFor (Reader.store form) i)
  = Some blocks →
  Reader.set_indicator (Some i) form
  = (Ok (), Reader.mkViewer (Reader.store form) (Some i)
              ("Opinions: " +:+ i_name +:+ " (" +:+ o_id i +:+ ")") (mjoin blocks)).
Proof.
  intros Hn Hb. unfold Reader.set_indicator. by rewrite Hn, (render_blocks _ _ blocks).
Qed.



(** The report on the indicator of the bundle with the identity class in
    capitals: the class and the values are title-cased, and a line end of
    two characters counts once. *)
Example render_capitals :
  Reader.buffer_values
    (Reader.set_indicator (Some Sample.ioc) (Scenario.viewer_of Scenario.capitals)).2
  = [ "# ACME (Org Unit)";
      "  Opinion on effectiveness: Strongly Agree";
      "  Evaluated at: 2018-04-01 12:30:15";
      "";
      String " " (String " " (String " " (String " "
        (String " " (String " " (String " " (String " "
          (String "s" (String "e" (String "e" (String "n"
            (String PyStr.LF "    twice"))))))))))));
      "";
      "";
      "# Alice (Individual)";
      "  Opinion on effectiveness: Agree";
      "  Evaluated at: 2018-03-07 09:05:00";
      "";
      "        works well";
      "";
      "" ].
Proof. by vm_compute. Qed.


(** An indicator without opinions renders an empty report. *)
Example render_no_opinions :
  let lonely := mkObject "indicator" "indicator--2" (Some "Unjudged") None "" [] "" None
                  Sample.t1 Sample.t1 None in
  Reader.set_indicator (Some lonely) Sample.viewer
  = (Ok (), Reader.mkViewer (MemoryStore_of Sample.reviewed) (Some lonely)
              "Opinions: Unjudged (indicator--2)" []).
Proof. by vm_compute. Qed.
(** ** The sample authoring run *)

Example sample_run_forms :
  Judge.next_form Sample.started = (Ok (Some Judge.IdentitySelectionForm), Sample.started)
  ∧ (Sample.run Sample.identity_checked Judge.IdentitySelectionForm Judge.Enter).1
    = Ok (Some Judge.IndicatorSelectionForm)
  ∧ (Sample.run Sample.identity_chosen Judge.IndicatorSelectionForm Judge.Enter).1
    = Ok (Some Judge.IndicatorEvaluationForm)
  ∧ Sample.saved.1 = Exited 0.
Proof. vm_compute. done. Qed.

(** ** Identity selection *)

Lemma set_identity_appends (i : StixObject) (w : Judge.World) :
  objects (Judge.bundle (Judge.set_identity i w).2) = (objects (Judge.bundle w) ++ [i])%list
  ∧ Judge.identity (Judge.set_identity i w).2 = Some i.
Proof. done. Qed.

(** Whatever identity reaches [on_identity_selected], one already in the
    bundle or a new one, is appended to the bundle. *)
Lemma on_identity_selected_appends (i : StixObject) (w : Judge.World) :
  Judge.on_identity_selected i w
  = (Ok (),
     Judge.set_next (Some "INDICATORS")
       (Judge.set_app_identity (Some i)
          (Judge.set_bundle
             (mkBundle (bundle_id (Judge.bundle w)) (objects (Judge.bundle w) ++ [i])) w))).
Proof. done. Qed.

(** C10.  The value list of the identity selection starts with the [None]
    sentinel that stands for a new identity.  When no line is check-marked,
    [get_identity] yields [None], so pressing enter, on whatever line and
    with whatever highlighted identity, switches to the NEW_IDENTITY form:
    after [onStart] the next active form is the identity entry form, also
    when the highlighted line is an existing identity, and neither the
    bundle nor the application's identity has changed. *)
Theorem unchecked_enter_opens_new_identity
    (allowed : list string) (serialize : bool → Bundle → string) (env : Judge.Env)
    (b : Bundle) (fs : gmap string string) (out : Judge.File)
    (cursor : nat) (act_on_this : option StixObject) :
  let ws := (Judge.onStart allowed (Judge.initial_world b fs out)).2 in
  let w0 := Judge.set_identity_select
              (Judge.mkSelect (Judge.values (Judge.identity_select ws)) [] cursor) ws in
  Judge.values (Judge.identity_select ws)
  = None :: (Some <$> filter (λ obj, o_type obj = "identity") (objects b))
  ∧ Judge.get_identity w0 = (Ok None, w0)
  ∧ Judge.IdentitySelection_actionHighlighted act_on_this w0
    = (Ok (), Judge.set_next (Some "NEW_IDENTITY") w0)
  ∧ Judge.bind (Judge.IdentitySelection_actionHighlighted act_on_this)
      (λ _, Judge.next_form) w0
    = (Ok (Some Judge.IdentityEntryForm), Judge.set_next (Some "NEW_IDENTITY") w0)
  ∧ (∀ existing : StixObject,
       Judge.values (Judge.identity_select ws) !! cursor = Some (Some existing) →
       Judge.step allowed serialize env Judge.IdentitySelectionForm Judge.Enter w0
       = (Ok (Some Judge.IdentityEntryForm), Judge.set_next (Some "NEW_IDENTITY") w0))
  ∧ Judge.bundle (Judge.set_next (Some "NEW_IDENTITY") w0) = b
  ∧ Judge.identity (Judge.set_next (Some "NEW_IDENTITY") w0) = None.
Proof.
  intros ws w0. repeat apply conj; try by vm_compute.
  intros existing Hcur.
  unfold Judge.step, Judge.handle, Judge.bind, Judge.gets, Judge.lift, Judge.highlighted.
  change (Judge.values (Judge.identity_select w0))
    with (Judge.values (Judge.identity_select ws)).
  change (Judge.cursor_line (Judge.identity_select w0)) with cursor.
  rewrite Hcur. by vm_compute.
Qed.

(** In the sample run: Alice is highlighted (line 1) but not check-marked;
    enter opens the identity entry form and selects nobody. *)
Example unchecked_enter_sample :
  let w0 := Judge.set_identity_select
              (Judge.mkSelect (Judge.values (Judge.identity_select Sample.started)) [] 1)
              Sample.started in
  Judge.values (Judge.identity_select Sample.started) !! 1 = Some (Some Sample.alice)
  ∧ (Sample.run w0 Judge.IdentitySelectionForm Judge.Enter).1
    = Ok (Some Judge.IdentityEntryForm)
  ∧ Judge.identity (Sample.run w0 Judge.IdentitySelectionForm Judge.Enter).2 = None
  ∧ objects (Judge.bundle (Sample.run w0 Judge.IdentitySelectionForm Judge.Enter).2)
    = [Sample.alice; Sample.ioc].
Proof. by vm_compute. Qed.

(** The same holds on any state of the application: without a check mark,
    enter never selects the highlighted identity. *)
Lemma unchecked_enter_any_state (w : Judge.World) (vals : list (option StixObject))
    (cursor : nat) (act_on_this : option StixObject) :
  let w0 := Judge.set_identity_select (Judge.mkSelect vals [] cursor) w in
  Judge.IdentitySelection_actionHighlighted act_on_this w0
  = (Ok (), Judge.set_next (Some "NEW_IDENTITY") w0).
Proof. done. Qed.

(** With one existing identity check-marked, enter selects it: it is
    appended to the bundle once more. *)
Lemma checked_enter_appends (w : Judge.World) (vals : list (option StixObject))
    (k cursor : nat) (i : StixObject) (act_on_this : option StixObject) :
  vals !! k = Some (Some i) →
  let w0 := Judge.set_identity_select (Judge.mkSelect vals [k] cursor) w in
  Judge.IdentitySelection_actionHighlighted act_on_this w0
  = Judge.on_identity_selected i w0.
Proof.
  intros Hk w0. unfold Judge.IdentitySelection_actionHighlighted, Judge.get_identity,
    Judge.bind, Judge.gets, Judge.lift, Judge.get_selected_objects; simpl.
  by rewrite Hk.
Qed.

(** C4.  Selecting an existing identity changes the bundle.  In the sample
    run the bundle holds one identity and one indicator, with distinct
    identifiers.  The user check-marks the existing identity and presses
    enter: the identity is appended again, and the identifiers of the
    bundle are no longer unique. *)
Theorem existing_identity_appended_again :
  objects (Judge.bundle Sample.started) = [Sample.alice; Sample.ioc]
  ∧ NoDup (o_id <$> objects (Judge.bundle Sample.started))
  ∧ (Sample.run Sample.identity_checked Judge.IdentitySelectionForm Judge.Enter).1
    = Ok (Some Judge.IndicatorSelectionForm)
  ∧ objects (Judge.bundle Sample.identity_chosen)
    = [Sample.alice; Sample.ioc; Sample.alice]
  ∧ ¬ NoDup (o_id <$> objects (Judge.bundle Sample.identity_chosen)).
Proof.
  split; [by vm_compute|]. split.
  { change (NoDup ["identity--a"; "indicator--1"]). by apply (bool_decide_unpack _). }
  split; [by vm_compute|]. split; [by vm_compute|].
  change (¬ NoDup ["identity--a"; "indicator--1"; "identity--a"]).
  intros H. apply NoDup_cons in H as [Hnot _]. apply Hnot. set_solver.
Qed.

(** ** Cancelling *)

(** C5.  The two cancels do not return to the identity selection.  After
    [onStart] the registered
    forms are MAIN, NEW_IDENTITY, INDICATORS and EVALUATION.  Cancel on the
    identity entry form and cancel on the indicator selection form both
    name the form IDENTITIES, which is not registered: the main loop raises
    [KeyError] when it looks the form up.  Cancel on the evaluation form
    names MAIN and does return to the identity selection. *)
Theorem cancel_names_unregistered_form
    (allowed : list string) (serialize : bool → Bundle → string) (env : Judge.Env)
    (b : Bundle) (fs : gmap string string) (out : Judge.File) :
  let ws := (Judge.onStart allowed (Judge.initial_world b fs out)).2 in
  dom (Judge.Forms ws) = {[ "MAIN"; "NEW_IDENTITY"; "INDICATORS"; "EVALUATION" ]}
  ∧ Judge.step allowed serialize env Judge.IdentityEntryForm Judge.Button_cancel ws
    = (Raised (KeyError "IDENTITIES"), Judge.set_next (Some "IDENTITIES") ws)
  ∧ Judge.step allowed serialize env Judge.IndicatorSelectionForm Judge.Button_ok ws
    = (Raised (KeyError "IDENTITIES"), Judge.set_next (Some "IDENTITIES") ws)
  ∧ Judge.step allowed serialize env Judge.IndicatorEvaluationForm Judge.Button_cancel ws
    = (Ok (Some Judge.IdentitySelectionForm), Judge.set_next (Some "MAIN") ws).
Proof.
  intros ws. split; [|repeat apply conj; by vm_compute].
  cbn. rewrite !dom_insert_L, dom_empty_L. set_solver.
Qed.

(** ** Saving *)

Lemma resize_0 (s : string) : Judge.resize 0 s = EmptyString.
Proof. by destruct s. Qed.

Lemma str_drop_empty (n : nat) : Judge.str_drop n EmptyString = EmptyString.
Proof. by destruct n. Qed.

(** C7.  The output stream is the one [judge_intel] opens: on the [-o]
    file, or else on the input file itself.  On it, [save_bundle] first
    truncates the target to nothing and then writes the pretty-printed
    serialization of the current bundle: afterwards the target holds
    exactly that text, whatever it held before, every other file is as it
    was, and the bundle in memory is unchanged. *)
Theorem save_replaces_target
    (serialize : bool → Bundle → string) (w : Judge.World)
    (input_name : string) (output_name : option string) :
  let w0 := Judge.set_io (Judge.files w) (Judge.open_output input_name output_name) w in
  let target := default input_name output_name in
  let content := serialize true (Judge.bundle w) in
  Judge.f_name (Judge.output w0) = target
  ∧ (Judge.truncate w0).1 = Ok ()
  ∧ Judge.files (Judge.truncate w0).2 = <[target := EmptyString]> (Judge.files w)
  ∧ (Judge.save_bundle serialize w0).1 = Ok ()
  ∧ Judge.files (Judge.save_bundle serialize w0).2 = <[target := content]> (Judge.files w)
  ∧ Judge.files (Judge.save_bundle serialize w0).2 !! target = Some content
  ∧ (∀ p, p ≠ target →
       Judge.files (Judge.save_bundle serialize w0).2 !! p = Judge.files w !! p)
  ∧ Judge.bundle (Judge.save_bundle serialize w0).2 = Judge.bundle w.
Proof.
  intros w0 target content.
  assert (Hfiles : Judge.files (Judge.save_bundle serialize w0).2
                   = <[target := content]> (Judge.files w)).
  { subst w0 target content. destruct output_name as [p|]; cbn.
    - rewrite !lookup_insert_eq, !insert_insert_eq. cbn.
      by rewrite !resize_0, str_drop_empty, str_app_empty.
    - rewrite !lookup_insert_eq, !insert_insert_eq. cbn.
      by rewrite !resize_0, str_drop_empty, str_app_empty. }
  split; [by destruct output_name|].
  split; [by destruct output_name|].
  split.
  { subst w0 target. destruct output_name as [p|]; cbn.
    - by rewrite !lookup_insert_eq, !insert_insert_eq, resize_0.
    - by rewrite resize_0. }
  split; [by destruct output_name|].
  split; [exact Hfiles|].
  split; [by rewrite Hfiles, lookup_insert_eq|].
  split; [intros p Hp; by rewrite Hfiles, lookup_insert_ne|].
  by destruct output_name.
Qed.

(** The sample run ends with the input file holding the serialization of
    the final bundle, nothing of its longer previous content remaining. *)
Example sample_run_saved_file :
  Judge.files Sample.saved.2 !! "in.json"
  = Some (Sample.serialize true (Judge.bundle Sample.saved.2))
  ∧ Sample.serialize true (Judge.bundle Sample.saved.2)
    = "pretty bundle--2: identity--a, indicator--1, identity--a, opinion--9".
Proof. split; by vm_compute. Qed.

(** ** Saving on a stream at any position *)

Lemma str_take_length (n : nat) (s : string) :
  String.length (Judge.str_take n s) = n `min` String.length s.
Proof.
  revert s; induction n as [|n IH]; intros [|c s]; simpl; try done.
  by rewrite IH.
Qed.

Lemma zeros_length (n : nat) : String.length (Judge.zeros n) = n.
Proof. induction n as [|n IH]; simpl; [done|]. by rewrite IH. Qed.

Lemma resize_length (n : nat) (s : string) : String.length (Judge.resize n s) = n.
Proof.
  unfold Judge.resize. rewrite str_length_app, str_take_length, zeros_length. lia.
Qed.

Lemma str_take_all (n : nat) (s : string) :
  (String.length s ≤ n)%nat → Judge.str_take n s = s.
Proof.
  revert s; induction n as [|n IH]; intros [|c s]; simpl; try done; [lia|].
  intros H. rewrite IH; [done|lia].
Qed.

Lemma str_drop_all (n : nat) (s : string) :
  (String.length s ≤ n)%nat → Judge.str_drop n s = EmptyString.
Proof.
  revert s; induction n as [|n IH]; intros [|c s]; simpl; try done; [lia|].
  intros H. apply IH. lia.
Qed.

Lemma resize_exact (n : nat) (s : string) :
  String.length s = n → Judge.resize n s = s.
Proof.
  intros <-. unfold Judge.resize.
  rewrite str_take_all by done. rewrite Nat.sub_diag. cbn. apply str_app_empty.
Qed.

(** What [save_bundle] leaves on the disk, for any output stream.  A
    stream not opened yet is created empty first.  An open stream at
    position [p] keeps the first [p] characters of the file (zero-padded if
    the file is shorter) and the serialization follows them: the file is
    replaced as a whole exactly when the stream stands at position 0. *)
Lemma save_bundle_files (serialize : bool → Bundle → string) (w : Judge.World) :
  let f := Judge.output w in
  let old := default EmptyString (Judge.files w !! Judge.f_name f) in
  let content := serialize true (Judge.bundle w) in
  let kept := if Judge.f_lazy f then EmptyString else Judge.resize (Judge.f_pos f) old in
  Judge.save_bundle serialize w
  = (Ok (),
     Judge.set_io
       (<[Judge.f_name f := kept +:+ content]> (Judge.files w))
       (Judge.mkFile (Judge.f_name f)
          ((if Judge.f_lazy f then 0 else Judge.f_pos f) + String.length content) false)
       w).
Proof.
  destruct w as [b i F n s1 nv ev s2 ei en s3 ex fs [name pos lz]].
  unfold Judge.save_bundle, Judge.truncate, Judge.write, Judge.ensure_open,
    Judge.bind, Judge.gets, Judge.modify, Judge.set_io.
  destruct lz; cbn -[Judge.resize Judge.str_drop].
  - rewrite !lookup_insert_eq, !insert_insert_eq. cbn -[Judge.resize Judge.str_drop].
    by rewrite !resize_0, str_drop_empty, str_app_empty.
  - rewrite !lookup_insert_eq, !insert_insert_eq. cbn -[Judge.resize Judge.str_drop].
    rewrite (resize_exact pos (Judge.resize pos _)) by apply resize_length.
    rewrite str_drop_all by (rewrite resize_length; lia).
    by rewrite str_app_empty.
Qed.

(** ** Confirming the evaluation *)

(** The constructor never records a creator. *)
Lemma Opinion_created_by_ref (allowed : list string) (fid : string) (now : datetime)
    (refs : list (option StixObject)) (v expl : string) (op : StixObject) :
  Opinion allowed fid now refs v expl = Ok op → created_by_ref op = None.
Proof.
  unfold Opinion. destruct (mapM _ refs); [|done].
  case_bool_decide; [|done]. by intros [= <-].
Qed.

(** C6.  On the evaluation form with a selected indicator, a selected
    opinion value [v] (the one check-marked line of the menu, whose values
    are the vocabulary of the library) and the entered text, [on_ok]
    constructs the opinion whose [object_refs] is exactly the identifier of
    the indicator, whose [opinion] is [v] itself and whose [explanation] is
    the text as entered.  It appends that opinion to the bundle: the
    objects of the bundle are those before followed by the opinion, and
    nothing else of the application has changed when the save callback is
    called on the opinion; then it exits.  With the callback of the tool,
    the run exits with code 0 and the file of the output stream ends with
    the serialization of the bundle that holds the opinion. *)
Theorem on_ok_appends_and_saves
    (allowed : list string) (env : Judge.Env)
    (on_save : StixObject → Judge.M unit) (w : Judge.World)
    (ind : StixObject) (k : nat) (v : string) :
  Judge.eval_indicator w = Some ind →
  Judge.values (Judge.opinion_select w) = allowed →
  Judge.value (Judge.opinion_select w) = [k] →
  allowed !! k = Some v →
  ∃ (op : StixObject) (w1 : Judge.World),
    o_type op = "opinion"
    ∧ object_refs op = [o_id ind]
    ∧ opinion op = v
    ∧ explanation op = Some (Judge.explanation_value w)
    ∧ objects (Judge.bundle w1) = (objects (Judge.bundle w) ++ [op])%list
    ∧ bundle_id (Judge.bundle w1) = bundle_id (Judge.bundle w)
    ∧ Judge.identity w1 = Judge.identity w
    ∧ Judge.files w1 = Judge.files w
    ∧ Judge.output w1 = Judge.output w
    ∧ Judge.IndicatorEvaluationForm_on_ok allowed env on_save w
      = Judge.bind (on_save op) (λ _, Judge.sys_exit 0) w1
    ∧ ∀ serialize : bool → Bundle → string,
        let saved := Judge.IndicatorEvaluationForm_on_ok allowed env
                       (Judge.handle_save serialize) w in
        let kept := if Judge.f_lazy (Judge.output w) then EmptyString
                    else Judge.resize (Judge.f_pos (Judge.output w))
                           (default EmptyString
                              (Judge.files w !! Judge.f_name (Judge.output w))) in
        saved.1 = Exited 0
        ∧ objects (Judge.bundle saved.2) = (objects (Judge.bundle w) ++ [op])%list
        ∧ Judge.files saved.2 !! Judge.f_name (Judge.output w)
          = Some (kept +:+ serialize true (Judge.bundle saved.2)).
Proof.
  intros Hind Hvals Hsel Hk.
  set (op := mkObject "opinion" (Judge.fresh_id env) None None "" [o_id ind] v
               (Some (Judge.explanation_value w)) (Judge.now env) (Judge.now env) None).
  set (w1 := Judge.set_bundle
               (mkBundle (bundle_id (Judge.bundle w)) (objects (Judge.bundle w) ++ [op])) w).
  assert (Heq : ∀ on_save',
             Judge.IndicatorEvaluationForm_on_ok allowed env on_save' w
             = Judge.bind (on_save' op) (λ _, Judge.sys_exit 0) w1).
  { intros on_save'.
    unfold Judge.IndicatorEvaluationForm_on_ok, Judge.OpinionMenu_value, Judge.get_opinion,
      Judge.bind, Judge.gets, Judge.lift, Judge.SelectOne_get_selected_objects, Judge.modify.
    rewrite Hind, Hsel, Hvals. simpl. rewrite Hk. simpl.
    unfold Opinion. simpl.
    rewrite bool_decide_eq_true_2; [done|].
    by eapply list_elem_of_lookup_2. }
  exists op, w1. do 9 (split; [reflexivity|]). split; [apply Heq|].
  intros serialize saved kept. subst saved kept. rewrite Heq.
  unfold Judge.bind.
  change (Judge.handle_save serialize op w1) with (Judge.save_bundle serialize w1).
  rewrite save_bundle_files. unfold Judge.sys_exit. cbv beta iota.
  change (Judge.output w1) with (Judge.output w).
  change (Judge.files w1) with (Judge.files w).
  split; [reflexivity|]. split; [reflexivity|].
  cbn [snd Judge.set_io Judge.files Judge.bundle]. by rewrite lookup_insert_eq.
Qed.

Lemma on_ok_appends_and_saves_witness :
  ∃ (op : StixObject) (w1 : Judge.World),
    o_type op = "opinion"
    ∧ object_refs op = ["indicator--1"]
    ∧ opinion op = "agree"
    ∧ explanation op = Some "works well"
    ∧ objects (Judge.bundle w1) = [Sample.alice; Sample.ioc; Sample.alice; op]
    ∧ Judge.IndicatorEvaluationForm_on_ok Sample.allowed Sample.env
        (Judge.handle_save Sample.serialize) Sample.evaluation_filled
      = Judge.bind (Judge.handle_save Sample.serialize op) (λ _, Judge.sys_exit 0) w1.
Proof.
  destruct (on_ok_appends_and_saves Sample.allowed Sample.env
              (Judge.handle_save Sample.serialize) Sample.evaluation_filled
              Sample.ioc 3 "agree")
    as (op & w1 & H1 & H2 & H3 & H4 & H5 & _ & _ & _ & _ & H6 & _);
    [by vm_compute..|].
  assert (Hb : objects (Judge.bundle Sample.evaluation_filled)
               = [Sample.alice; Sample.ioc; Sample.alice]) by (by vm_compute).
  exists op, w1. rewrite H5, Hb.
  split; [exact H1|]. split; [exact H2|]. split; [exact H3|]. split; [exact H4|].
  split; [reflexivity|exact H6].
Defined.

(** The stored value is the vocabulary entry, not its display form. *)
Example stored_value_differs_from_display :
  Judge.display_value "strongly-agree" = "Strongly Agree"
  ∧ Judge.display_value "strongly-agree" ≠ "strongly-agree".
Proof. split; [reflexivity|discriminate]. Qed.

(** C9.  With no opinion value selected, the menu returns an empty list of
    selected values and unpacking it into one name raises [ValueError], so
    [on_ok] raises while it reads the value.  Whatever the save callback
    is, what [on_ok] leaves is the state it started from: the objects of
    the bundle and the files are as before, and the callback has not
    run. *)
Theorem on_ok_without_selection
    (allowed : list string) (env : Judge.Env)
    (on_save : StixObject → Judge.M unit) (w : Judge.World)
    (vals : list string) (cursor : nat) (expl : string) :
  let w0 := Judge.set_evaluation_input (Judge.mkSelect vals [] cursor) expl w in
  let after := Judge.IndicatorEvaluationForm_on_ok allowed env on_save w0 in
  Judge.SelectOne_get_selected_objects (Judge.opinion_select w0) = Ok []
  ∧ Judge.OpinionMenu_value w0 = (Raised ValueError, w0)
  ∧ after.1 = Raised ValueError
  ∧ after.2 = w0
  ∧ objects (Judge.bundle after.2) = objects (Judge.bundle w)
  ∧ Judge.bundle after.2 = Judge.bundle w
  ∧ Judge.files after.2 = Judge.files w
  ∧ Judge.output after.2 = Judge.output w
  ∧ ∀ other_save : StixObject → Judge.M unit,
      Judge.IndicatorEvaluationForm_on_ok allowed env other_save w0 = after.
Proof. intros w0 after. repeat apply conj; reflexivity. Qed.

(** Whatever the state of the evaluation form, what [on_ok] adds to the
    bundle carries no [created_by_ref]: the identity the application holds
    never reaches the opinion. *)
Lemma on_ok_adds_unattributed (allowed : list string) (env : Judge.Env)
    (on_save : StixObject → Judge.M unit) (w : Judge.World) :
  (∀ op w1, Judge.bundle (on_save op w1).2 = Judge.bundle w1) →
  ∃ added : list StixObject,
    objects (Judge.bundle (Judge.IndicatorEvaluationForm_on_ok allowed env on_save w).2)
    = (objects (Judge.bundle w) ++ added)%list
    ∧ Forall (λ o, created_by_ref o = None) added.
Proof.
  intros Hsave.
  unfold Judge.IndicatorEvaluationForm_on_ok, Judge.OpinionMenu_value, Judge.get_opinion,
    Judge.bind, Judge.gets, Judge.lift, Judge.modify, Judge.sys_exit.
  destruct (Judge.SelectOne_get_selected_objects (Judge.opinion_select w)) as [objs| |];
    try (exists []; by rewrite app_nil_r).
  destruct (Judge.unpack1 (Some objs)) as [v| |]; try (exists []; by rewrite app_nil_r).
  destruct (Opinion allowed (Judge.fresh_id env) (Judge.now env)
              [Judge.eval_indicator w] v (Judge.explanation_value w)) as [op| |] eqn:Hop;
    try (exists []; by rewrite app_nil_r).
  exists [op]. split.
  - specialize (Hsave op (Judge.set_bundle
      (mkBundle (bundle_id (Judge.bundle w)) (objects (Judge.bundle w) ++ [op])) w)).
    destruct (on_save op _) as [[?| |] w2]; simpl in *; by rewrite Hsave.
  - repeat constructor. by eapply Opinion_created_by_ref.
Qed.

(** C1.  The code does not record the creator.  In the sample run the
    identity resolved at the start is Alice and the run ends by saving, yet
    the opinion appended to the bundle has no [created_by_ref]: the identity
    kept by the application is not passed to the constructor.  On the saved
    bundle [creator_of] resolves nothing for that opinion, and the review
    tool raises when it renders the indicator. *)
Theorem saved_opinion_has_no_creator :
  Sample.saved.1 = Exited 0
  ∧ Judge.identity Sample.saved.2 = Some Sample.alice
  ∧ ∃ op : StixObject,
      last (objects (Judge.bundle Sample.saved.2)) = Some op
      ∧ o_type op = "opinion"
      ∧ object_refs op = [o_id Sample.ioc]
      ∧ created_by_ref op = None
      ∧ creator_of (MemoryStore_of (Judge.bundle Sample.saved.2)) op = None
      ∧ (Reader.set_indicator (Some Sample.ioc)
           (Reader.mkViewer (MemoryStore_of (Judge.bundle Sample.saved.2)) None "" [])).1
        = Raised AttributeError.
Proof.
  split; [by vm_compute|]. split; [by vm_compute|].
  exists (mkObject "opinion" "opinion--9" None None "" ["indicator--1"] "agree"
            (Some "works well") Sample.t2 Sample.t2 None).
  repeat apply conj; by vm_compute.
Qed.

(** ** What an authoring run keeps *)

Section RunKeeps.
Variable allowed : list string.
Variable serialize : bool → Bundle → string.
Variable parsed : Bundle.
Variable fs : gmap string string.
Variable input_name : string.
Variable output_name : option string.

Local Abbreviation out := (Judge.open_output input_name output_name).
Local Abbreviation target := (default input_name output_name).
Local Abbreviation Inv := (Kept.invariant allowed parsed fs out).
Local Abbreviation Stops := (Kept.outcome_of_run allowed serialize parsed fs target).

Lemma invariant_onStart :
  Inv (Judge.onStart allowed (Judge.initial_world parsed fs out)).2.
Proof.
  constructor; try reflexivity.
  - intros i. by vm_compute.
  - exists []. split; [by rewrite app_nil_r|constructor].
Qed.

Lemma invariant_set_next (n : option string) (w : Judge.World) :
  Inv w → Inv (Judge.set_next n w).
Proof. intros []; by constructor. Qed.

Lemma invariant_edit (w : Judge.World) (e : Session.Edit) :
  Inv w → Inv (Session.apply_edit w e).
Proof. intros []; destruct e; by constructor. Qed.

Lemma invariant_edits (es : list Session.Edit) (w : Judge.World) :
  Inv w → Inv (foldl Session.apply_edit w es).
Proof.
  revert w; induction es as [|e es IH]; intros w Hw; simpl; [done|].
  by apply IH, invariant_edit.
Qed.

Lemma invariant_identity_selected (i : StixObject) (w : Judge.World) :
  o_type i = "identity" → Inv w → Inv (Judge.on_identity_selected i w).2.
Proof.
  intros Hi [HF Hids Hinds Hmenu Heval (ids & Hb & Hall) Hbid Hfs Hout].
  constructor; try done.
  exists (ids ++ [i])%list. split.
  - simpl. by rewrite Hb, app_assoc.
  - apply Forall_app. by repeat constructor.
Qed.

Lemma invariant_stops (r : outcome unit) (w : Judge.World) : Inv w → Stops r w.
Proof.
  intros [HF Hids Hinds Hmenu Heval (ids & Hb & Hall) Hbid Hfs Hout].
  exists ids, []. rewrite app_nil_r. by eauto.
Qed.

(** A turn either keeps the invariant, whatever its outcome, or is the
    save that ends the run. *)
Lemma handle_keeps (env : Judge.Env) (form : Judge.FormKind) (a : Judge.Action)
    (w : Judge.World) :
  Inv w →
  Inv (Judge.handle allowed serialize env form a w).2
  ∨ ((Judge.handle allowed serialize env form a w).1 = Exited 0
     ∧ form = Judge.IndicatorEvaluationForm ∧ a = Judge.Button_ok
     ∧ Stops (Exited 0) (Judge.handle allowed serialize env form a w).2).
Proof.
  intros Hinv.
  destruct form, a; simpl Judge.handle; try (left; exact Hinv);
    try (left; by apply invariant_set_next).
  - (* enter on the identity selection *)
    left. unfold Judge.bind, Judge.gets, Judge.lift, Judge.highlighted.
    destruct (Judge.values (Judge.identity_select w) !! _) as [x|]; [|done].
    unfold Judge.IdentitySelection_actionHighlighted, Judge.get_identity,
      Judge.bind, Judge.gets, Judge.lift, Judge.get_selected_objects.
    destruct (Judge.value (Judge.identity_select w)) as [|k ks] eqn:Hval;
      [by apply invariant_set_next|].
    destruct (mapM _ (k :: ks)) as [objs|] eqn:Hobjs; [|done].
    destruct objs as [|o [|o' objs]]; simpl; try done.
    { by apply invariant_set_next. }
    destruct o as [i|]; [|by apply invariant_set_next].
    apply invariant_identity_selected; [|done].
    apply mapM_Some_1 in Hobjs. apply Forall2_cons_inv_r in Hobjs as (k' & ks' & Hk & _ & _).
    rewrite (Kept.inv_identities _ _ _ _ _ Hinv) in Hk.
    apply list_elem_of_lookup_2 in Hk.
    apply elem_of_cons in Hk as [?|Hk]; [done|].
    apply list_elem_of_fmap in Hk as (i' & [= <-] & Hi).
    by apply list_elem_of_filter in Hi as [? _].
  - (* a new identity *)
    left. unfold Judge.IdentityEntryForm_on_ok, Judge.bind, Judge.gets.
    by apply invariant_identity_selected.
  - (* enter on the indicator selection *)
    left. unfold Judge.bind, Judge.gets, Judge.lift, Judge.highlighted.
    destruct (Judge.values (Judge.indicator_select w) !! _) as [x|] eqn:Hx; [|done].
    unfold Judge.IndicatorSelection_actionHighlighted, Judge.bind, Judge.getForm.
    rewrite (Kept.inv_forms _ _ _ _ _ Hinv). simpl.
    rewrite (Kept.inv_indicators _ _ _ _ _ Hinv) in Hx.
    apply list_elem_of_lookup_2, list_elem_of_filter in Hx as [Hty Hin].
    unfold Judge.IndicatorEvaluationForm_set_indicator, Judge.bind, Judge.gets,
      Judge.modify, Judge.raise.
    destruct (o_name x); destruct Hinv; constructor; try done;
      simpl; by intros i [= <-].
  - (* save *)
    unfold Judge.IndicatorEvaluationForm_on_ok, Judge.OpinionMenu_value, Judge.get_opinion,
      Judge.bind, Judge.gets, Judge.lift, Judge.modify, Judge.sys_exit.
    destruct (Judge.SelectOne_get_selected_objects (Judge.opinion_select w)) as [objs| |];
      try (left; exact Hinv).
    destruct (Judge.unpack1 (Some objs)) as [v| |]; try (left; exact Hinv).
    destruct (Opinion allowed (Judge.fresh_id env) (Judge.now env)
                [Judge.eval_indicator w] v (Judge.explanation_value w)) as [op| |] eqn:Hop;
      try (left; exact Hinv).
    right.
    unfold Judge.handle_save, Judge.add_opinion, Judge.bind, Judge.ret.
    rewrite save_bundle_files. simpl.
    split; [done|]. split; [done|]. split; [done|].
    destruct Hinv as [HF Hids Hinds Hmenu Heval (ids & Hb & Hall) Hbid Hfs Hout].
    unfold Opinion in Hop.
    destruct (Judge.eval_indicator w) as [ind|] eqn:Hind; [|done].
    simpl in Hop. case_bool_decide as Hv; [|done].
    injection Hop as <-.
    destruct (Heval ind eq_refl) as [Hin Hty].
    eexists ids, [_]. split; [simpl; by rewrite Hb, <- app_assoc|]. split; [done|].
    right. eexists _, ind. repeat split; try done.
    simpl. rewrite Hout, Hfs. destruct output_name; simpl; rewrite ?resize_0; reflexivity.
Qed.

Lemma main_loop_cons (i : Session.Input) (rest : list Session.Input) (w : Judge.World) :
  Session.main_loop allowed serialize (i :: rest) w
  = match Judge.next_form w with
    | (Ok (Some f), _) =>
        match Judge.handle allowed serialize (Session.drawn i) f (Session.action i)
                (foldl Session.apply_edit w (Session.edits i)) with
        | (Ok _, w') => Session.main_loop allowed serialize rest w'
        | (Raised e, w') => (Raised e, w')
        | (Exited n, w') => (Exited n, w')
        end
    | (Ok None, _) => (Ok (), w)
    | (Raised e, _) => (Raised e, w)
    | (Exited n, _) => (Exited n, w)
    end.
Proof.
  cbn [Session.main_loop]. unfold Judge.bind, Judge.next_form, Judge.modify, Judge.ret.
  destruct (Judge.NEXT_ACTIVE_FORM w) as [fmid|]; [|done].
  case_bool_decide; [done|].
  by destruct (Judge.Forms w !! fmid).
Qed.

Lemma main_loop_stops (inputs : list Session.Input) (w : Judge.World) :
  Inv w →
  Stops (Session.main_loop allowed serialize inputs w).1
        (Session.main_loop allowed serialize inputs w).2.
Proof.
  revert w; induction inputs as [|i rest IH]; intros w Hinv.
  { by apply invariant_stops. }
  rewrite main_loop_cons. unfold Judge.next_form.
  destruct (Judge.NEXT_ACTIVE_FORM w) as [fmid|]; [|by apply invariant_stops].
  case_bool_decide; [by apply invariant_stops|].
  destruct (Judge.Forms w !! fmid) as [f|]; [|by apply invariant_stops].
  pose proof (invariant_edits (Session.edits i) w Hinv) as Hinv'.
  destruct (handle_keeps (Session.drawn i) f (Session.action i) _ Hinv')
    as [Hk|(Hr & _ & _ & Hk)].
  - destruct (Judge.handle _ _ _ _ _ _) as [[[]| |] w']; simpl in Hk.
    + by apply IH.
    + by apply invariant_stops.
    + by apply invariant_stops.
  - destruct (Judge.handle _ _ _ _ _ _) as [r w']; simpl in *. by subst r.
Qed.

Lemma run_stops (inputs : list Session.Input) :
  Stops (Session.run allowed serialize inputs (Judge.initial_world parsed fs out)).1
        (Session.run allowed serialize inputs (Judge.initial_world parsed fs out)).2.
Proof.
  unfold Session.run.
  change (Judge.bind (Judge.onStart allowed) (λ _, Session.main_loop allowed serialize inputs)
            (Judge.initial_world parsed fs out))
    with (Session.main_loop allowed serialize inputs
            (Judge.onStart allowed (Judge.initial_world parsed fs out)).2).
  apply main_loop_stops, invariant_onStart.
Qed.

End RunKeeps.

(** X1.  A run of the authoring tool, whatever the user does, keeps the
    objects of the input bundle, in their order, at the front of the
    bundle; what it adds behind them are identities followed by at most one
    opinion. *)
Theorem run_keeps_input_objects
    (allowed : list string) (serialize : bool → Bundle → string)
    (parsed : Bundle) (fs : gmap string string)
    (input_name : string) (output_name : option string)
    (inputs : list Session.Input) :
  let final := (Session.run allowed serialize inputs
                  (Judge.initial_world parsed fs
                     (Judge.open_output input_name output_name))).2 in
  ∃ ids ops : list StixObject,
    objects (Judge.bundle final) = (objects parsed ++ ids ++ ops)%list
    ∧ Forall (λ o, o_type o = "identity") ids
    ∧ Forall (λ o, o_type o = "opinion") ops
    ∧ (length ops ≤ 1)%nat.
Proof.
  intros final.
  destruct (run_stops allowed serialize parsed fs input_name output_name inputs)
    as (ids & ops & Hobjs & Hids & [[-> _]|(op & ind & -> & _ & Hop & _)]).
  - exists ids, []. split; [exact Hobjs|]. split; [exact Hids|].
    split; [constructor|simpl; lia].
  - exists ids, [op]. split; [exact Hobjs|]. split; [exact Hids|].
    split; [by repeat constructor|simpl; lia].
Qed.

(** X2.  A run writes nothing unless it ends by saving: the files are those
    of the start, or else the run has exited with code 0 and exactly the
    target (the [-o] file, or the input file) has changed, to the
    pretty-printed serialization of the final bundle. *)
Theorem run_writes_only_on_save
    (allowed : list string) (serialize : bool → Bundle → string)
    (parsed : Bundle) (fs : gmap string string)
    (input_name : string) (output_name : option string)
    (inputs : list Session.Input) :
  let result := Session.run allowed serialize inputs
                  (Judge.initial_world parsed fs
                     (Judge.open_output input_name output_name)) in
  Judge.files result.2 = fs
  ∨ (result.1 = Exited 0
     ∧ Judge.files result.2
       = <[default input_name output_name := serialize true (Judge.bundle result.2)]> fs).
Proof.
  intros result.
  destruct (run_stops allowed serialize parsed fs input_name output_name inputs)
    as (ids & ops & Hobjs & Hids & [[_ Hfs]|(op & ind & _ & Hr & _ & _ & _ & _ & _ & _ & Hfs)]).
  - by left.
  - by right.
Qed.

(** X3.  Every opinion a run adds to the bundle is on an indicator of the
    input bundle: its [object_refs] is the identifier of one object of the
    input bundle whose type is indicator, and its value belongs to the
    vocabulary. *)
Theorem run_opinion_on_input_indicator
    (allowed : list string) (serialize : bool → Bundle → string)
    (parsed : Bundle) (fs : gmap string string)
    (input_name : string) (output_name : option string)
    (inputs : list Session.Input) :
  let final := (Session.run allowed serialize inputs
                  (Judge.initial_world parsed fs
                     (Judge.open_output input_name output_name))).2 in
  Forall (λ op, o_type op = "opinion" →
                ∃ ind, ind ∈ objects parsed ∧ o_type ind = "indicator"
                       ∧ object_refs op = [o_id ind] ∧ opinion op ∈ allowed)
    (drop (length (objects parsed)) (objects (Judge.bundle final))).
Proof.
  intros final. apply Forall_forall. intros op Hin Hop.
  destruct (run_stops allowed serialize parsed fs input_name output_name inputs)
    as (ids & ops & Hobjs & Hids & Hcase).
  fold final in Hobjs. rewrite Hobjs, drop_app_length in Hin.
  apply elem_of_app in Hin as [Hin|Hin].
  - rewrite Forall_forall in Hids. specialize (Hids op Hin). congruence.
  - destruct Hcase as [[-> _]|(op' & ind & -> & _ & _ & Hind & Hty & Hrefs & Hv & _)].
    + by apply elem_of_nil in Hin.
    + apply list_elem_of_singleton in Hin as ->. by exists ind.
Qed.

(** ** Check marks on the identity selection *)

Lemma mapM_lookup_in_range {A} (vals : list A) (marks : list nat) :
  Forall (λ k, (k < length vals)%nat) marks →
  ∃ l, mapM (λ i, vals !! i) marks = Some l ∧ length l = length marks.
Proof.
  induction 1 as [|k ks Hk _ (l & Hl & Hlen)]; [by exists []|].
  destruct (lookup_lt_is_Some_2 vals k Hk) as [x Hx].
  exists (x :: l). simpl. rewrite Hx, Hl. simpl. by rewrite Hlen.
Qed.

(** X4.  With two or more lines check-marked on the identity selection,
    enter raises [ValueError] from the one-name unpacking in
    [get_identity]: no identity is selected, the bundle is untouched and no
    form is switched to. *)
Theorem several_check_marks_raise
    (w : Judge.World) (vals : list (option StixObject)) (marks : list nat)
    (cursor : nat) (act_on_this : option StixObject) :
  (2 ≤ length marks)%nat →
  Forall (λ k, (k < length vals)%nat) marks →
  let w0 := Judge.set_identity_select (Judge.mkSelect vals marks cursor) w in
  Judge.IdentitySelection_actionHighlighted act_on_this w0 = (Raised ValueError, w0).
Proof.
  intros Hlen Hrange w0.
  destruct (mapM_lookup_in_range vals marks Hrange) as (l & Hl & Hll).
  unfold Judge.IdentitySelection_actionHighlighted, Judge.get_identity,
    Judge.bind, Judge.gets, Judge.lift, Judge.get_selected_objects.
  change (Judge.identity_select w0) with (Judge.mkSelect vals marks cursor).
  cbn [Judge.value Judge.values].
  destruct marks as [|k1 [|k2 ks]]; simpl in Hlen; try lia.
  rewrite Hl.
  destruct l as [|x1 [|x2 l]]; simpl in Hll; try lia.
  reflexivity.
Qed.

Lemma several_check_marks_raise_witness :
  let w0 := Judge.set_identity_select
              (Judge.mkSelect (Judge.values (Judge.identity_select Sample.started)) [0; 1] 1)
              Sample.started in
  Judge.IdentitySelection_actionHighlighted None w0 = (Raised ValueError, w0).
Proof.
  apply (several_check_marks_raise Sample.started
           (Judge.values (Judge.identity_select Sample.started)) [0; 1] 1 None).
  - simpl. lia.
  - repeat constructor; vm_compute; lia.
Defined.

(** X5.  With only the first line check-marked, the line of the [None]
    sentinel, enter opens the identity entry form: nothing is appended to
    the bundle and no identity is set. *)
Theorem sentinel_check_mark_opens_entry
    (allowed : list string) (b : Bundle) (fs : gmap string string) (out : Judge.File)
    (cursor : nat) (act_on_this : option StixObject) :
  let ws := (Judge.onStart allowed (Judge.initial_world b fs out)).2 in
  let w0 := Judge.set_identity_select
              (Judge.mkSelect (Judge.values (Judge.identity_select ws)) [0] cursor) ws in
  Judge.bind (Judge.IdentitySelection_actionHighlighted act_on_this)
    (λ _, Judge.next_form) w0
  = (Ok (Some Judge.IdentityEntryForm), Judge.set_next (Some "NEW_IDENTITY") w0)
  ∧ Judge.bundle (Judge.set_next (Some "NEW_IDENTITY") w0) = b
  ∧ Judge.identity (Judge.set_next (Some "NEW_IDENTITY") w0) = None.
Proof. intros ws w0. repeat apply conj; by vm_compute. Qed.

(** X6.  Confirming the identity entry form appends one identity of class
    individual with the name and contact information as entered, makes it
    the application's identity and leads to the indicator selection.  The
    lines of the identity selection stay those built at the start: the new
    identity is not among them. *)
Theorem new_identity_is_appended
    (allowed : list string) (serialize : bool → Bundle → string) (env : Judge.Env)
    (b : Bundle) (fs : gmap string string) (out : Judge.File) (nm email : string) :
  let ws := Judge.set_entry nm email (Judge.onStart allowed (Judge.initial_world b fs out)).2 in
  let made := Identity (Judge.fresh_id env) (Judge.now env) "individual" nm email in
  let result := Judge.step allowed serialize env Judge.IdentityEntryForm Judge.Button_ok ws in
  result.1 = Ok (Some Judge.IndicatorSelectionForm)
  ∧ objects (Judge.bundle result.2) = (objects b ++ [made])%list
  ∧ Judge.identity result.2 = Some made
  ∧ o_name made = Some nm ∧ contact_information made = email
  ∧ identity_class made = Some "individual"
  ∧ Judge.values (Judge.identity_select result.2)
    = None :: (Some <$> filter (λ obj, o_type obj = "identity") (objects b)).
Proof. intros ws made result. repeat apply conj; by vm_compute. Qed.



(** ** The review tool beyond the claims *)

(** X8.  On a bundle in which no two objects share both identifier and
    modification time, and in which every opinion on the indicator carries
    an explanation and has a creator in the bundle that carries a name and
    an identity class, the review tool renders a named indicator without
    error and the pager holds exactly seven entries for each object of the
    bundle that is an opinion on the indicator; none, when there is no such
    opinion. *)
Theorem report_has_seven_entries_per_opinion
    (B : Bundle) (i : StixObject) (form : Reader.IndicatorViewerForm) :
  Reader.store form = MemoryStore_of B →
  is_Some (o_name i) →
  NoDup (version_key <$> objects B) →
  (∀ o, o ∈ objects B → is_opinion_on i o → renderable (MemoryStore_of B) o) →
  (Reader.set_indicator (Some i) form).1 = Ok ()
  ∧ length (Reader.buffer_values (Reader.set_indicator (Some i) form).2)
    = 7 * length (filter (is_opinion_on i) (objects B)).
Proof.
  intros Hst [i_name Hname] Hnd Hres.
  destruct (mapM_render_one (MemoryStore_of B) (opinionsFor (MemoryStore_of B) i))
    as [blocks Hblocks].
  { apply Forall_forall. intros o Ho.
    apply elem_of_opinionsFor in Ho as [Hin Hop].
    apply Hres; [|done]. by apply all_objects_of_bundle. }
  destruct (mapM_blocks _ _ _ Hblocks) as (Hlen & Hseven & _).
  rewrite <- Hst in Hblocks.
  rewrite (set_indicator_blocks i i_name form blocks Hname Hblocks). simpl.
  split; [done|].
  by rewrite length_blocks, Hlen, (opinionsFor_perm B i Hnd).
Qed.

Lemma report_has_seven_entries_per_opinion_witness :
  (Reader.set_indicator (Some Sample.ioc) Sample.viewer).1 = Ok ()
  ∧ length (Reader.buffer_values (Reader.set_indicator (Some Sample.ioc) Sample.viewer).2)
    = 7 * length (filter (is_opinion_on Sample.ioc) (objects Sample.reviewed)).
Proof.
  apply (report_has_seven_entries_per_opinion Sample.reviewed Sample.ioc Sample.viewer).
  - reflexivity.
  - by eexists.
  - apply (bool_decide_unpack _). vm_compute. reflexivity.
  - intros o Ho [Hty _]. unfold Sample.reviewed in Ho. simpl in Ho.
    repeat (apply elem_of_cons in Ho as [->|Ho];
            [first [discriminate Hty
                   | by exists Sample.alice, "Alice", "individual", "works well"
                   | by exists Sample.alice, "Alice", "individual",
                       (String "n" (String "o" (String PyStr.LF "too noisy"))) ]|]).
    by apply elem_of_nil in Ho.
Defined.

Lemma render_app (st : MemoryStore) (pre post : list StixObject)
    (blocks : list (list string)) (buf : list string) :
  mapM (Reader.render_one st) pre = Some blocks →
  Reader.render st (pre ++ post) buf
  = Reader.render st post (buf ++ mjoin blocks).
Proof.
  revert blocks buf; induction pre as [|op pre IH]; intros blocks buf; simpl.
  - intros [= <-]. simpl. by rewrite app_nil_r.
  - destruct (Reader.render_one st op) as [b|]; [|done]. simpl.
    destruct (mapM (Reader.render_one st) pre) as [bs|] eqn:Hbs; [|done]. simpl.
    intros [= <-]. rewrite (IH bs) by done. simpl. by rewrite <- app_assoc.
Qed.

(** X9.  When an opinion on a named indicator has no creator in the store,
    or lacks the explanation, or its creator lacks the name or the identity
    class, while the opinions listed before it carry all of these, the
    review tool raises at that opinion: the pager is left with the blocks
    of the opinions listed before it, seven entries each, and nothing of it
    or of the opinions after it. *)
Theorem unresolved_creator_stops_the_report
    (form : Reader.IndicatorViewerForm) (i bad : StixObject)
    (pre post : list StixObject) :
  is_Some (o_name i) →
  opinionsFor (Reader.store form) i = (pre ++ bad :: post)%list →
  Forall (renderable (Reader.store form)) pre →
  ¬ renderable (Reader.store form) bad →
  (Reader.set_indicator (Some i) form).1 = Raised AttributeError
  ∧ length (Reader.buffer_values (Reader.set_indicator (Some i) form).2) = 7 * length pre
  ∧ ∃ blocks,
      mapM (Reader.render_one (Reader.store form)) pre = Some blocks
      ∧ Reader.buffer_values (Reader.set_indicator (Some i) form).2 = mjoin blocks.
Proof.
  intros [i_name Hname] Hops Hpre Hbad.
  destruct (mapM_render_one _ _ Hpre) as [blocks Hblocks].
  destruct (mapM_blocks _ _ _ Hblocks) as (Hlen & Hseven & _).
  assert (Hnone : Reader.render_one (Reader.store form) bad = None).
  { destruct (Reader.render_one (Reader.store form) bad) eqn:E; [|done].
    exfalso. apply Hbad, render_one_renderable. by eexists. }
  unfold Reader.set_indicator.
  rewrite Hname, Hops, (render_app _ _ _ blocks) by done. simpl. rewrite Hnone. simpl.
  split; [done|]. split; [by rewrite length_blocks, Hlen|]. by exists blocks.
Qed.

Lemma unresolved_creator_stops_the_report_witness :
  (Reader.set_indicator (Some Sample.ioc) Scenario.viewer).1 = Raised AttributeError
  ∧ length (Reader.buffer_values
              (Reader.set_indicator (Some Sample.ioc) Scenario.viewer).2) = 7.
Proof.
  destruct (unresolved_creator_stops_the_report Scenario.viewer Sample.ioc Scenario.orphan
              [Sample.newer] []) as (H1 & H2 & _).
  - by eexists.
  - by vm_compute.
  - constructor; [|constructor].
    by exists Sample.alice, "Alice", "individual",
         (String "n" (String "o" (String PyStr.LF "too noisy"))).
  - intros (c & nm & cls & e & Hc & _). discriminate Hc.
  - split; [exact H1|exact H2].
Defined.

(** X10.  What the viewer shows of a named indicator depends on the store
    and the indicator only: rendering it after any other rendering,
    successful or not, gives what rendering it first gives.  Reports do not
    pile up. *)
Theorem report_replaces_previous
    (form : Reader.IndicatorViewerForm) (before : option StixObject) (j : StixObject) :
  is_Some (o_name j) →
  Reader.set_indicator (Some j) (Reader.set_indicator before form).2
  = Reader.set_indicator (Some j) form.
Proof.
  intros [j_name Hj]. destruct before as [i|]; [|done].
  assert (Hst : Reader.store (Reader.set_indicator (Some i) form).2 = Reader.store form).
  { unfold Reader.set_indicator. destruct (o_name i); [|done].
    by destruct (Reader.render _ _ _). }
  unfold Reader.set_indicator at 1. rewrite Hj, Hst.
  unfold Reader.set_indicator. by rewrite Hj.
Qed.

Lemma report_replaces_previous_witness :
  Reader.set_indicator (Some Sample.ioc)
    (Reader.set_indicator (Some Sample.ioc) Scenario.viewer).2
  = Reader.set_indicator (Some Sample.ioc) Scenario.viewer.
Proof.
  apply (report_replaces_previous Scenario.viewer (Some Sample.ioc) Sample.ioc).
  by eexists.
Defined.

(** An indicator without a name stops [set_indicator] before the pager is
    cleared: the report shown before stays. *)
Example nameless_indicator_keeps_the_report :
  let nameless := mkObject "indicator" "indicator--3" None None "" [] "" None
                    Sample.t1 Sample.t1 None in
  let shown := (Reader.set_indicator (Some Sample.ioc) Sample.viewer).2 in
  (Reader.set_indicator (Some nameless) shown).1 = Raised AttributeError
  ∧ Reader.buffer_values (Reader.set_indicator (Some nameless) shown).2
    = Reader.buffer_values shown
  ∧ length (Reader.buffer_values shown) = 14.
Proof. by vm_compute. Qed.

Lemma query_indicators (st : MemoryStore) :
  query st [ mkFilter "type" OpEq "indicator" ]
  = filter (λ obj, o_type obj = "indicator") (all_objects st).
Proof.
  unfold query.
  induction (all_objects st) as [|o l IH]; [done|].
  rewrite !filter_cons, IH. unfold check_filter, get_property; simpl.
  rewrite andb_true_r.
  destruct (decide (o_type o = "indicator")) as [H|H].
  - rewrite decide_True; [done|]. by apply bool_decide_eq_true.
  - rewrite decide_False; [done|]. by rewrite bool_decide_eq_true.
Qed.

(** X11.  For one bundle with unique identifiers, the review tool and the
    authoring tool offer the same indicators in the same order: the
    objects of type indicator, in bundle order. *)
Theorem both_tools_list_the_same_indicators (b : Bundle) :
  NoDup (o_id <$> objects b) →
  Judge.values (ReaderApp.IndicatorSelection_init (MemoryStore_of b))
  = Judge.values (Judge.IndicatorSelection_init b)
  ∧ Judge.values (Judge.IndicatorSelection_init b)
    = filter (λ obj, o_type obj = "indicator") (objects b).
Proof.
  intros Hnd. split; [|done]. simpl.
  by rewrite query_indicators, (all_objects_unique_ids b Hnd).
Qed.

Lemma both_tools_list_the_same_indicators_witness :
  Judge.values (ReaderApp.IndicatorSelection_init (MemoryStore_of Sample.reviewed))
  = Judge.values (Judge.IndicatorSelection_init Sample.reviewed)
  ∧ Judge.values (Judge.IndicatorSelection_init Sample.reviewed)
    = filter (λ obj, o_type obj = "indicator") (objects Sample.reviewed).
Proof.
  apply (both_tools_list_the_same_indicators Sample.reviewed).
  apply (bool_decide_unpack _). vm_compute. reflexivity.
Defined.

(** With two versions of an indicator in the bundle, the review tool lists
    them together and the authoring tool where they stand. *)
Example tools_list_versions_differently :
  let first := mkObject "indicator" "indicator--1" (Some "Bad domain") None "" [] "" None
                 Sample.t1 Sample.t1 None in
  let second := mkObject "indicator" "indicator--2" (Some "Second") None "" [] "" None
                  Sample.t1 Sample.t1 None in
  let again := mkObject "indicator" "indicator--1" (Some "Bad domain v2") None "" [] "" None
                 Sample.t1 Sample.t2 None in
  let b := mkBundle "b" [first; second; again] in
  Judge.values (ReaderApp.IndicatorSelection_init (MemoryStore_of b)) = [first; again; second]
  ∧ Judge.values (Judge.IndicatorSelection_init b) = [first; second; again].
Proof. by vm_compute. Qed.

(** ** What a review run keeps *)

Section ReviewKeeps.
Variable b : Bundle.

Local Abbreviation RInv := (ReaderKept.invariant b).

Lemma review_registry_viewer :
  ReaderKept.registry !! "INDICATOR" = Some ReaderApp.IndicatorViewerForm.
Proof. by vm_compute. Qed.

Lemma review_invariant_onStart : RInv (ReaderApp.onStart (ReaderApp.initial_world b)).
Proof.
  constructor; try done.
  - by left.
  - by left.
Qed.

Lemma review_invariant_cursor (n : nat) (w : ReaderApp.World) :
  RInv w → RInv (ReaderApp.set_cursor n w).
Proof. intros []; by constructor. Qed.

Lemma set_indicator_store (i : option StixObject) (form : Reader.IndicatorViewerForm) :
  Reader.store (Reader.set_indicator i form).2 = Reader.store form.
Proof.
  destruct i as [i|]; [|done]. unfold Reader.set_indicator.
  destruct (o_name i); [|done]. by destruct (Reader.render _ _ _).
Qed.

Lemma render_outcome (st : MemoryStore) (ops : list StixObject) (buf : list string) :
  (Reader.render st ops buf).1 = Ok () ∨ (Reader.render st ops buf).1 = Raised AttributeError.
Proof.
  revert buf; induction ops as [|o ops IH]; intros buf; simpl; [by left|].
  destruct (Reader.render_one st o); [apply IH|by right].
Qed.

Lemma set_indicator_outcome (i : option StixObject) (form : Reader.IndicatorViewerForm) :
  (Reader.set_indicator i form).1 = Ok ()
  ∨ (Reader.set_indicator i form).1 = Raised AttributeError.
Proof.
  destruct i as [i|]; [|by left]. unfold Reader.set_indicator.
  destruct (o_name i); [|by right].
  pose proof (render_outcome (Reader.store form) (opinionsFor (Reader.store form) i) []).
  by destruct (Reader.render _ _ _).
Qed.

Lemma viewer_store (w : ReaderApp.World) :
  RInv w → Reader.store (ReaderApp.viewer w) = MemoryStore_of b.
Proof.
  intros [_ _ _ _ [->|(i & _ & _ & ->)]]; [done|].
  by rewrite set_indicator_store.
Qed.

Lemma set_indicator_same_store (j : StixObject) (j_name : string)
    (f1 f2 : Reader.IndicatorViewerForm) :
  o_name j = Some j_name →
  Reader.store f1 = Reader.store f2 →
  Reader.set_indicator (Some j) f1 = Reader.set_indicator (Some j) f2.
Proof. intros Hj H. unfold Reader.set_indicator. by rewrite Hj, H. Qed.

(** A turn of the review keeps the invariant, whatever its outcome, and
    its outcome is no [KeyError]; it is no [AttributeError] either when the
    indicators of the bundle have names and the opinions of the bundle
    carry what the report reads. *)
Lemma review_handle_keeps (form : ReaderApp.FormKind) (a : ReaderApp.Action)
    (w : ReaderApp.World) :
  RInv w →
  RInv (ReaderApp.handle form a w).2
  ∧ (∀ k, (ReaderApp.handle form a w).1 ≠ Raised (KeyError k))
  ∧ (∀ n, (ReaderApp.handle form a w).1 = Exited n → n = 0)
  ∧ ((∀ i, i ∈ objects b → o_type i = "indicator" → is_Some (o_name i)) →
     (∀ i o, o ∈ objects b → is_opinion_on i o → renderable (MemoryStore_of b) o) →
     (ReaderApp.handle form a w).1 ≠ Raised AttributeError).
Proof.
  intros Hinv. destruct form, a; simpl.
  - split; [done|]. split; [done|]. split; [|done]. by intros n [= <-].
  - destruct (Judge.values (ReaderApp.indicator_select w) !! _) as [ind|] eqn:Hind;
      [|by (split; [|split; [|split]])].
    rewrite (ReaderKept.inv_lines _ _ Hinv), query_indicators in Hind.
    apply list_elem_of_lookup_2, list_elem_of_filter in Hind as [Hty Hin].
    apply all_objects_of_bundle in Hin.
    destruct (o_name ind) as [ind_name|] eqn:Hname.
    2:{ split; [done|]. split; [done|]. split; [done|].
        intros Hnames _. destruct (Hnames ind Hin Hty) as [? Hn]. congruence. }
    unfold ReaderApp.IndicatorSelection_actionHighlighted.
    rewrite (ReaderKept.inv_forms _ _ Hinv), review_registry_viewer.
    rewrite (set_indicator_same_store ind ind_name _ (ReaderKept.blank (MemoryStore_of b)))
      by (done || by rewrite viewer_store).
    assert (Hkeep : RInv (ReaderApp.set_viewer
               (Reader.set_indicator (Some ind) (ReaderKept.blank (MemoryStore_of b))).2 w)).
    { destruct Hinv. constructor; try done. right. by exists ind. }
    assert (Hres :
      (∀ i o, o ∈ objects b → is_opinion_on i o → renderable (MemoryStore_of b) o) →
      (Reader.set_indicator (Some ind) (ReaderKept.blank (MemoryStore_of b))).1 = Ok ()).
    { intros Hall.
      destruct (mapM_render_one (MemoryStore_of b) (opinionsFor (MemoryStore_of b) ind))
        as [blocks Hblocks].
      { apply Forall_forall. intros o Ho.
        apply elem_of_opinionsFor in Ho as [Ho1 Ho2].
        apply (Hall ind); [|done]. by apply all_objects_of_bundle. }
      by rewrite (set_indicator_blocks ind ind_name _ blocks). }
    pose proof (set_indicator_outcome (Some ind) (ReaderKept.blank (MemoryStore_of b)))
      as Hshape.
    destruct (Reader.set_indicator (Some ind) (ReaderKept.blank (MemoryStore_of b)))
      as [[[]|e|n] v]; cbn [fst snd] in *.
    + split; [|by (split; [|split])].
      destruct Hkeep. constructor; try done. by right.
    + destruct Hshape as [?|[= ->]]; [done|].
      split; [done|]. split; [done|]. split; [done|].
      intros _ Hall. by specialize (Hres Hall).
    + by destruct Hshape.
  - split; [|by (split; [|split])].
    destruct Hinv. constructor; try done. by left.
  - by (split; [|split; [|split]]).
Qed.

Lemma review_loop_keeps (inputs : list ReaderApp.Input) (w : ReaderApp.World) :
  RInv w →
  RInv (ReaderApp.main_loop inputs w).2
  ∧ (∀ k, (ReaderApp.main_loop inputs w).1 ≠ Raised (KeyError k))
  ∧ (∀ n, (ReaderApp.main_loop inputs w).1 = Exited n → n = 0)
  ∧ ((∀ i, i ∈ objects b → o_type i = "indicator" → is_Some (o_name i)) →
     (∀ i o, o ∈ objects b → is_opinion_on i o → renderable (MemoryStore_of b) o) →
     (ReaderApp.main_loop inputs w).1 ≠ Raised AttributeError).
Proof.
  revert w; induction inputs as [|i rest IH]; intros w Hinv; simpl.
  { by (split; [|split; [|split]]). }
  unfold ReaderApp.next_form.
  rewrite (ReaderKept.inv_forms _ _ Hinv).
  assert (∃ f, (match ReaderApp.NEXT_ACTIVE_FORM w with
                | Some fmid =>
                    if bool_decide (fmid = "") then Ok None
                    else match ReaderKept.registry !! fmid with
                         | Some f => Ok (Some f)
                         | None => Raised (KeyError fmid)
                         end
                | None => Ok None
                end) = Ok (Some f)) as [f ->].
  { destruct (ReaderKept.inv_next _ _ Hinv) as [-> | ->]; by eexists. }
  pose proof (review_handle_keeps f (ReaderApp.action i) _
                (review_invariant_cursor (ReaderApp.line i) w Hinv))
    as (Hk & Hkey & Hexit & Hattr).
  destruct (ReaderApp.handle f (ReaderApp.action i) _) as [[[]|e|n] w']; simpl in *.
  - by apply IH.
  - by (split; [|split; [|split]]).
  - by (split; [|split; [|split]]).
Qed.

End ReviewKeeps.

(** X12.  A run of the review tool, whatever the user does, never looks up
    a form that is not registered (it raises no [KeyError]), exits with
    code 0 only, and at every stop its pager is blank or holds what
    rendering one indicator of the bundle gives. *)
Theorem review_run_keeps_its_forms (b : Bundle) (inputs : list ReaderApp.Input) :
  let result := ReaderApp.run inputs (ReaderApp.initial_world b) in
  (∀ k, result.1 ≠ Raised (KeyError k))
  ∧ (∀ n, result.1 = Exited n → n = 0)
  ∧ ReaderApp.Forms result.2 = ReaderKept.registry
  ∧ (ReaderApp.viewer result.2 = ReaderKept.blank (MemoryStore_of b)
     ∨ ∃ i, i ∈ objects b ∧ o_type i = "indicator"
            ∧ ReaderApp.viewer result.2
              = (Reader.set_indicator (Some i) (ReaderKept.blank (MemoryStore_of b))).2).
Proof.
  intros result.
  destruct (review_loop_keeps b inputs _ (review_invariant_onStart b))
    as ([] & Hkey & Hexit & _).
  by (split; [|split; [|split]]).
Qed.

(** X13.  On a bundle in which every indicator has a name and every opinion
    carries an explanation and has a creator in the bundle that carries a
    name and an identity class, a run of the review tool never faults on a
    missing property: whatever the user does, it raises no
    [AttributeError]. *)
Theorem review_run_resolves_creators (b : Bundle) (inputs : list ReaderApp.Input) :
  (∀ i, i ∈ objects b → o_type i = "indicator" → is_Some (o_name i)) →
  (∀ i o, o ∈ objects b → is_opinion_on i o → renderable (MemoryStore_of b) o) →
  (ReaderApp.run inputs (ReaderApp.initial_world b)).1 ≠ Raised AttributeError.
Proof.
  intros Hnames Hall.
  destruct (review_loop_keeps b inputs _ (review_invariant_onStart b))
    as (_ & _ & _ & Hattr).
  by apply Hattr.
Qed.

(** ** The two tools together *)

Lemma render_unresolved (st : MemoryStore) (ops : list StixObject) (buf : list string)
    (bad : StixObject) :
  bad ∈ ops → Reader.render_one st bad = None →
  (Reader.render st ops buf).1 = Raised AttributeError.
Proof.
  intros Hin Hbad. revert buf; induction ops as [|o ops IH]; intros buf.
  { by apply elem_of_nil in Hin. }
  simpl. destruct (Reader.render_one st o) as [entries|] eqn:Hc; [|done].
  apply elem_of_cons in Hin as [->|Hin]; [congruence|]. by apply IH.
Qed.

(** X14.  No opinion added by a run of the authoring tool names its
    creator, whatever identity the user resolved; and on the bundle such a
    run leaves, the review tool raises [AttributeError] whenever it renders
    the indicator the added opinion is on. *)
Theorem added_opinion_faults_the_review
    (allowed : list string) (serialize : bool → Bundle → string)
    (parsed : Bundle) (fs : gmap string string)
    (input_name : string) (output_name : option string)
    (inputs : list Session.Input) :
  let final := (Session.run allowed serialize inputs
                  (Judge.initial_world parsed fs
                     (Judge.open_output input_name output_name))).2 in
  Forall (λ op, o_type op = "opinion" →
                created_by_ref op = None
                ∧ ∀ (form : Reader.IndicatorViewerForm) (ind : StixObject),
                    Reader.store form = MemoryStore_of (Judge.bundle final) →
                    object_refs op = [o_id ind] →
                    (Reader.set_indicator (Some ind) form).1 = Raised AttributeError)
    (drop (length (objects parsed)) (objects (Judge.bundle final))).
Proof.
  intros final. apply Forall_forall. intros op Hin Hop.
  destruct (run_stops allowed serialize parsed fs input_name output_name inputs)
    as (ids & ops & Hobjs & Hids & Hcase).
  fold final in Hobjs. pose proof Hin as Hin'.
  rewrite Hobjs, drop_app_length in Hin.
  apply elem_of_app in Hin as [Hin|Hin].
  { rewrite Forall_forall in Hids. specialize (Hids op Hin). congruence. }
  destruct Hcase as [[-> _]|(op' & ind' & -> & _ & _ & _ & _ & _ & _ & Hnone & _)].
  { by apply elem_of_nil in Hin. }
  apply list_elem_of_singleton in Hin as ->.
  split; [done|]. intros form ind Hst Hrefs.
  unfold Reader.set_indicator. destruct (o_name ind) as [ind_name|]; [|done].
  rewrite Hst.
  pose proof (render_unresolved (MemoryStore_of (Judge.bundle final))
                (opinionsFor (MemoryStore_of (Judge.bundle final)) ind) [] op') as Hr.
  destruct (Reader.render _ _ _) as [r buf]. simpl in *. apply Hr.
  - apply elem_of_opinionsFor. split.
    + apply (last_object_stored _ (objects parsed ++ ids)).
      by rewrite Hobjs, app_assoc.
    + split; [done|]. rewrite Hrefs. by apply list_elem_of_singleton.
  - unfold Reader.render_one, creator_of. by rewrite Hnone.
Qed.

(** ** The menu of opinion values *)

Lemma upper_not_hyphen (c : ascii) : c ≠ "-"%char → PyStr.upper c ≠ "-"%char.
Proof.
  intros Hc. unfold PyStr.upper. destruct (PyStr.is_lower c) eqn:Hl; [|done].
  intros H. apply (f_equal nat_of_ascii) in H.
  unfold PyStr.is_lower in Hl. apply andb_true_iff in Hl as [H1 H2].
  apply Nat.leb_le in H1, H2.
  rewrite nat_ascii_embedding in H by lia.
  change (nat_of_ascii "-"%char) with 45 in H. lia.
Qed.

Lemma lower_not_hyphen (c : ascii) : c ≠ "-"%char → PyStr.lower c ≠ "-"%char.
Proof.
  intros Hc. unfold PyStr.lower. destruct (PyStr.is_upper c) eqn:Hl; [|done].
  intros H. apply (f_equal nat_of_ascii) in H.
  unfold PyStr.is_upper in Hl. apply andb_true_iff in Hl as [H1 H2].
  apply Nat.leb_le in H1, H2.
  rewrite nat_ascii_embedding in H by lia.
  change (nat_of_ascii "-"%char) with 45 in H. lia.
Qed.

Lemma title_from_no_hyphen (prev : bool) (s : string) :
  has_hyphen s = false → has_hyphen (PyStr.title_from prev s) = false.
Proof.
  revert prev; induction s as [|c s IH]; intros prev; simpl; [done|].
  intros H. apply orb_false_iff in H as [Hc Hs].
  apply Ascii.eqb_neq in Hc.
  rewrite IH by done. rewrite orb_false_r. apply Ascii.eqb_neq.
  destruct prev; [by apply lower_not_hyphen|by apply upper_not_hyphen].
Qed.

Lemma replace_no_hyphen (s : string) : has_hyphen (PyStr.replace "-" " " s) = false.
Proof.
  induction s as [|c s IH]; simpl; [done|].
  rewrite IH, orb_false_r.
  destruct (Ascii.eqb c "-") eqn:E; [reflexivity|exact E].
Qed.

Lemma title_from_length (prev : bool) (s : string) :
  String.length (PyStr.title_from prev s) = String.length s.
Proof. revert prev; induction s as [|c s IH]; intros prev; simpl; [done|]. by rewrite IH. Qed.

Lemma replace_length (a b : ascii) (s : string) :
  String.length (PyStr.replace a b s) = String.length s.
Proof. induction s as [|c s IH]; simpl; [done|]. by rewrite IH. Qed.

(** X15.  The display form of an opinion value has the length of the value
    and contains no hyphen, whatever the value. *)
Theorem display_value_has_no_hyphen (option : string) :
  String.length (Judge.display_value option) = String.length option
  ∧ has_hyphen (Judge.display_value option) = false.
Proof.
  unfold Judge.display_value, PyStr.title. split.
  - by rewrite title_from_length, replace_length.
  - apply title_from_no_hyphen, replace_no_hyphen.
Qed.

(** ** Bundles already in the order of the report *)

Lemma sort_desc_sorted_input {A K : Type} (key : A → K) (ltb : K → K → bool) (l : list A) :
  StronglySorted (desc key ltb) l → sort_desc key ltb l = l.
Proof.
  induction 1 as [|x l Hs IH Hx]; [done|].
  simpl. rewrite IH. destruct Hx as [|y l' Hxy _]; [done|].
  simpl. unfold desc in Hxy. by rewrite Hxy.
Qed.

(** X16.  When the opinions on an indicator already stand in the bundle
    with none before one created later, the query returns them exactly in
    bundle order. *)
(** X16.  When the identifiers of the bundle are unique and the opinions
    on an indicator already stand in the bundle with none before one
    created later, the query returns them exactly in bundle order. *)
Theorem opinionsFor_keeps_a_descending_bundle (B : Bundle) (i : StixObject) :
  NoDup (o_id <$> objects B) →
  StronglySorted (desc created dt_ltb) (filter (is_opinion_on i) (objects B)) →
  opinionsFor (MemoryStore_of B) i = filter (is_opinion_on i) (objects B).
Proof.
  intros Hnd Hs. unfold opinionsFor.
  rewrite query_opinions, (all_objects_unique_ids B Hnd).
  by apply sort_desc_sorted_input.
Qed.

Lemma opinionsFor_keeps_a_descending_bundle_witness :
  opinionsFor (MemoryStore_of Scenario.descending) Sample.ioc
  = filter (is_opinion_on Sample.ioc) (objects Scenario.descending).
Proof.
  apply (opinionsFor_keeps_a_descending_bundle Scenario.descending Sample.ioc).
  - apply (bool_decide_unpack _). vm_compute. reflexivity.
  - change (StronglySorted (desc created dt_ltb)
              [Sample.newer; Scenario.orphan; Sample.older]).
    repeat constructor.
Defined.

(** ** Reading a printed timestamp back *)

Lemma pad2_inj (a b : nat) : (a < 100)%nat → (b < 100)%nat → pad2 a = pad2 b → a = b.
Proof.
  intros Ha Hb H. apply (f_equal decimal) in H.
  rewrite !decimal_pad2 in H by done. by injection H.
Qed.

Lemma pad4_inj (a b : nat) :
  (a < 100 * 100)%nat → (b < 100 * 100)%nat → pad4 a = pad4 b → a = b.
Proof.
  intros Ha Hb H. apply (f_equal decimal) in H.
  rewrite !decimal_pad4 in H by done. by injection H.
Qed.

(** X17.  The printed timestamp keeps everything but the microseconds: two
    timestamps in range that print alike agree on year, month, day, hour,
    minute and second. *)
Theorem strftime_keeps_the_seconds (d1 d2 : datetime) :
  dt_valid d1 → dt_valid d2 →
  strftime d1 = strftime d2 →
  year d1 = year d2 ∧ month d1 = month d2 ∧ day d1 = day d2
  ∧ hour d1 = hour d2 ∧ minute d1 = minute d2 ∧ second d1 = second d2.
Proof.
  intros (Hy1 & Hm1 & Hd1 & Hh1 & Hmi1 & Hs1) (Hy2 & Hm2 & Hd2 & Hh2 & Hmi2 & Hs2) H.
  pose proof (f_equal (substring 0 4) H) as HY.
  pose proof (f_equal (substring 5 2) H) as HM.
  pose proof (f_equal (substring 8 2) H) as HD.
  pose proof (f_equal (substring 11 2) H) as Hh.
  pose proof (f_equal (substring 14 2) H) as Hm.
  pose proof (f_equal (substring 17 2) H) as Hs.
  change (pad4 (year d1) = pad4 (year d2)) in HY.
  change (pad2 (month d1) = pad2 (month d2)) in HM.
  change (pad2 (day d1) = pad2 (day d2)) in HD.
  change (pad2 (hour d1) = pad2 (hour d2)) in Hh.
  change (pad2 (minute d1) = pad2 (minute d2)) in Hm.
  change (pad2 (second d1) = pad2 (second d2)) in Hs.
  split; [apply pad4_inj; [lia|lia|done]|].
  repeat split; (apply pad2_inj; [lia|lia|done]).
Qed.

Lemma strftime_keeps_the_seconds_witness :
  year Sample.t2 = 2018 ∧ month Sample.t2 = 4 ∧ day Sample.t2 = 1
  ∧ hour Sample.t2 = 12 ∧ minute Sample.t2 = 30 ∧ second Sample.t2 = 15.
Proof.
  apply (strftime_keeps_the_seconds Sample.t2 (mkDatetime 2018 4 1 12 30 15 999)).
  - unfold dt_valid; simpl; lia.
  - unfold dt_valid; simpl; lia.
  - reflexivity.
Defined.

Lemma review_run_resolves_creators_witness :
  (ReaderApp.run [ReaderApp.mkInput 0 ReaderApp.Enter;
                  ReaderApp.mkInput 0 ReaderApp.Button_ok;
                  ReaderApp.mkInput 0 ReaderApp.Button_ok]
     (ReaderApp.initial_world Sample.reviewed)).1 ≠ Raised AttributeError.
Proof.
  apply (review_run_resolves_creators Sample.reviewed).
  - intros i Hi Hty. unfold Sample.reviewed in Hi. simpl in Hi.
    repeat (apply elem_of_cons in Hi as [->|Hi];
            [first [discriminate Hty | by eexists]|]).
    by apply elem_of_nil in Hi.
  - intros i o Ho [Hty _]. unfold Sample.reviewed in Ho. simpl in Ho.
    repeat (apply elem_of_cons in Ho as [->|Ho];
            [first [discriminate Hty
                   | by exists Sample.alice, "Alice", "individual", "works well"
                   | by exists Sample.alice, "Alice", "individual",
                       (String "n" (String "o" (String PyStr.LF "too noisy"))) ]|]).
    by apply elem_of_nil in Ho.
Defined.

(** The sample review: enter on the indicator shows its report, Return
    leads back to the selection, Done exits. *)
Example review_sample_run :
  (ReaderApp.run [ReaderApp.mkInput 0 ReaderApp.Enter;
                  ReaderApp.mkInput 0 ReaderApp.Button_ok;
                  ReaderApp.mkInput 0 ReaderApp.Button_ok]
     (ReaderApp.initial_world Sample.reviewed)).1 = Exited 0
  ∧ (ReaderApp.run [ReaderApp.mkInput 0 ReaderApp.Enter]
       (ReaderApp.initial_world Sample.reviewed)).1 = Ok ()
  ∧ ReaderApp.NEXT_ACTIVE_FORM
      (ReaderApp.run [ReaderApp.mkInput 0 ReaderApp.Enter]
         (ReaderApp.initial_world Sample.reviewed)).2 = Some "INDICATOR".
Proof. by vm_compute. Qed.

(** ** The lines the selections display *)

(** X18.  The line of an identity always differs from the line NEW
    IDENTITY of the sentinel, whatever the identity's class, name and
    identifier: it spans two rows; and where an identity has no line,
    because it lacks the class or the name, drawing it raises
    [AttributeError]. *)
Theorem identity_line_is_not_the_sentinel_line (i : StixObject) :
  Display.IdentitySelection_display_value (Some i)
  ≠ Display.IdentitySelection_display_value None
  ∧ match Display.IdentitySelection_display_value (Some i) with
    | Ok line => PyStr.has_lf line = true
    | Raised e => e = AttributeError
    | Exited _ => False
    end
  ∧ Display.IdentitySelection_display_value None = Ok "NEW IDENTITY"
  ∧ PyStr.has_lf "NEW IDENTITY" = false.
Proof.
  assert (H : match Display.IdentitySelection_display_value (Some i) with
              | Ok line => PyStr.has_lf line = true
              | Raised e => e = AttributeError
              | Exited _ => False
              end).
  { unfold Display.IdentitySelection_display_value.
    destruct (identity_class i) as [cls|]; [|done].
    destruct (o_name i) as [nm|]; [|done].
    rewrite !has_lf_app. change (PyStr.has_lf Reader.NL) with true.
    by rewrite !orb_true_r. }
  split; [|by split].
  intros Heq. rewrite Heq in H. discriminate H.
Qed.

(** X19.  The line of an indicator whose name and identifier contain no
    line feed has two rows: the name, and the identifier behind a tab. *)
Theorem indicator_line_has_two_rows (ind : StixObject) (nm : string) :
  o_name ind = Some nm →
  PyStr.has_lf nm = false →
  PyStr.has_lf (o_id ind) = false →
  ∃ line,
    Display.IndicatorSelection_display_value ind = Ok line
    ∧ PyStr.split_lf line = [nm; Display.TAB +:+ o_id ind].
Proof.
  intros Hnm Hname Hid. unfold Display.IndicatorSelection_display_value.
  rewrite Hnm. eexists. split; [reflexivity|].
  rewrite split_lf_prepend by done.
  change (PyStr.split_lf (Reader.NL +:+ Display.TAB +:+ o_id ind))
    with (EmptyString :: PyStr.split_lf (Display.TAB +:+ o_id ind)).
  rewrite split_lf_single by (by rewrite has_lf_app, Hid).
  cbn [app]. by rewrite str_app_empty.
Qed.

Lemma indicator_line_has_two_rows_witness :
  ∃ line,
    Display.IndicatorSelection_display_value Sample.ioc = Ok line
    ∧ PyStr.split_lf line = ["Bad domain"; Display.TAB +:+ "indicator--1"].
Proof.
  apply (indicator_line_has_two_rows Sample.ioc "Bad domain"); reflexivity.
Defined.
